(** * Batch notebook orchestration scripts of PyCaret-Examples

    A shallow embedding of [scripts/run_all_notebooks.py],
    [scripts/quick_test.py] and [scripts/run_notebooks_papermill.py].

    The scripts are sequences of effects (printing, reading the clock,
    testing a path, launching an external process, calling the papermill
    library) around a small amount of control flow.  The effects are
    modelled by a state-and-exception monad over an abstract [World];
    everything the scripts decide themselves (the command line they build,
    the [try]/[except] clauses, the [results] dictionary, the counts, the
    report and the exit status) is translated from the source.

    [scripts/download_datasets.py] is embedded in the same monad.  Of
    [scripts/optimize_notebooks.py] and [scripts/add_auto_download.py], which
    rewrite notebook cells, the embedding covers what they do to the cells
    and what they print; reading and writing the notebook files is left
    out. *)

From Stdlib Require Import List ZArith NArith String Ascii Bool Lia.
From Stdlib Require Import DecimalString.
Import ListNotations.

Set Implicit Arguments.

(** ** Python values used by the scripts *)

Module Py.

(** A Python [str] is a sequence of Unicode code points. *)
Definition char := N.
Definition str := list char.

(** Decoding of the UTF-8 bytes of a literal of this file into code
    points, so that the literals of the scripts can be written down as
    they are in the source. *)
Fixpoint continuation (n : nat) (acc : N) (bs : list N) : N * list N :=
  match n with
  | O => (acc, bs)
  | S n' =>
      match bs with
      | [] => (acc, [])
      | b :: bs' => continuation n' (acc * 64 + N.land b 63)%N bs'
      end
  end.

Fixpoint decode_utf8 (fuel : nat) (bs : list N) : str :=
  match fuel with
  | O => []
  | S fuel' =>
      match bs with
      | [] => []
      | b :: bs' =>
          let '(c, rest) :=
            if (b <? 128)%N then (b, bs')
            else if (b <? 224)%N then continuation 1 (N.land b 31) bs'
            else if (b <? 240)%N then continuation 2 (N.land b 15) bs'
            else continuation 3 (N.land b 7) bs' in
          c :: decode_utf8 fuel' rest
      end
  end.

Definition bytes_of_string (s : string) : list N :=
  map N_of_ascii (list_ascii_of_string s).

Definition lit (s : string) : str :=
  let bs := bytes_of_string s in decode_utf8 (List.length bs) bs.

Definition nl : str := [10%N].

Definition char_eqb : char -> char -> bool := N.eqb.

(** [s == t] *)
Fixpoint str_eqb (s t : str) : bool :=
  match s, t with
  | [], [] => true
  | c :: s', d :: t' => char_eqb c d && str_eqb s' t'
  | _, _ => false
  end.

(** [s * n] *)
Fixpoint str_mul (s : str) (n : nat) : str :=
  match n with
  | O => []
  | S n' => s ++ str_mul s n'
  end.

(** [str(n)] for an [int] *)
Definition str_of_int (z : Z) : str :=
  lit (NilZero.string_of_int (Z.to_int z)).

Definition str_of_nat (n : nat) : str := str_of_int (Z.of_nat n).

(** [len(s)] *)
Definition len (s : str) : Z := Z.of_nat (List.length s).

(** [s[i:]], with Python's treatment of negative and out-of-range
    bounds: a negative [i] counts from the end, and the bound is clamped
    to [0 .. len(s)]. *)
Definition slice_from (s : str) (i : Z) : str :=
  let n := len s in
  let start := if (i <? 0)%Z then Z.max 0 (n + i) else Z.min i n in
  skipn (Z.to_nat start) s.

(** [t.startswith(s)] and [s in t] *)
Fixpoint startswith (t s : str) : bool :=
  match s, t with
  | [], _ => true
  | c :: s', d :: t' => char_eqb c d && startswith t' s'
  | _ :: _, [] => false
  end.

Fixpoint contains (s t : str) : bool :=
  startswith t s ||
  match t with
  | [] => false
  | _ :: t' => contains s t'
  end.

(** [sep.join(xs)] *)
Fixpoint join (sep : str) (xs : list str) : str :=
  match xs with
  | [] => []
  | [x] => x
  | x :: xs' => x ++ sep ++ join sep xs'
  end.

(** *** [pathlib.Path] (POSIX flavour): the root and the parts.  The root
    is empty for a relative path; a text that starts with exactly two
    slashes keeps both, one that starts with one slash or with three or
    more has the root "/". *)
Record Path := mkPath { root : str; parts : list str }.

Definition slash : char := 47%N.

Definition root_of (s : str) : str :=
  if startswith s [slash; slash; slash] then [slash]
  else if startswith s [slash; slash] then [slash; slash]
  else if startswith s [slash] then [slash]
  else [].

Fixpoint split_slash (cur : str) (s : str) : list str :=
  match s with
  | [] => [rev cur]
  | c :: s' =>
      if char_eqb c slash then rev cur :: split_slash [] s'
      else split_slash (c :: cur) s'
  end.

Definition is_component (p : str) : bool :=
  negb (str_eqb p []) && negb (str_eqb p (lit ".")).

Definition components (s : str) : list str :=
  filter is_component (split_slash [] s).

(** [Path(s)] *)
Definition path_of_str (s : str) : Path :=
  mkPath (root_of s) (components s).

(** [p / s]: an absolute operand replaces [p]. *)
Definition truediv (p : Path) (s : str) : Path :=
  if startswith s [slash] then path_of_str s
  else mkPath (root p) (parts p ++ components s).

(** [p.parent] *)
Definition parent (p : Path) : Path :=
  mkPath (root p) (removelast (parts p)).

(** [p.name] *)
Definition name (p : Path) : str := last (parts p) [].

(** [str(p)] *)
Definition str_of_path (p : Path) : str :=
  match root p, parts p with
  | [], [] => lit "."
  | r, ps => r ++ join [slash] ps
  end.

(** *** [dict] with [str] keys: insertion-ordered; assigning to a key
    that is present replaces the value and keeps the key's position. *)
Definition dict (V : Type) := list (str * V).

Fixpoint dict_set {V} (d : dict V) (k : str) (v : V) : dict V :=
  match d with
  | [] => [(k, v)]
  | (k', v') :: d' =>
      if str_eqb k' k then (k', v) :: d' else (k', v') :: dict_set d' k v
  end.

Definition values {V} (d : dict V) : list V := map snd d.
Definition items {V} (d : dict V) : list (str * V) := d.
Definition keys {V} (d : dict V) : list str := map fst d.

(** [sum(1 for x in xs if p(x))] *)
Definition sum_ones {A} (p : A -> bool) (xs : list A) : nat :=
  list_sum (map (fun _ => 1) (filter p xs)).

End Py.

Import Py.

(** ** Effects

    An exception that is an instance of [Exception].  [msg] is [str(e)].
    [KeyboardInterrupt] and [SystemExit] are not instances of [Exception];
    the second is what [sys.exit] raises and is the [Exit] outcome below. *)
Inductive error :=
| CalledProcessError (msg : str) (returncode : Z) (stderr : str)
| ImportError (msg : str)
| OtherException (msg : str).

Definition str_exc (e : error) : str :=
  match e with
  | CalledProcessError m _ _ => m
  | ImportError m => m
  | OtherException m => m
  end.

(** The arguments of one [pm.execute_notebook] call. *)
Record pm_call := mkPmCall {
  pm_input_path : str;
  pm_output_path : str;
  pm_kernel_name : str;
  pm_progress_bar : bool;
  pm_request_save_on_cell_execute : bool
}.

(** What a run does to the outside, in order. *)
Inductive event :=
| Stdout (line : str)
| SubprocessRun (cmd : list str) (capture_output : bool)
| ImportPapermill
| PmExecuteNotebook (c : pm_call).

(** The outside of the scripts: the clock, the file system, the external
    programs and the papermill library.  An operation that can fail
    answers [Some e] when it raises [e] and [None] when it returns.
    [subprocess_run] stands for [subprocess.run(cmd, check=True, ...)]: a
    non-zero exit status is reported as a [CalledProcessError]. *)
Class Platform := {
  World : Type;
  dunder_file : str;
  datetime_now : World -> Z * World;
  strftime : Z -> str -> str;
  str_timedelta : Z -> str;
  path_exists : Path -> World -> bool;
  subprocess_run : list str -> bool -> World -> option error * World;
  import_papermill : World -> option error * World;
  pm_execute_notebook : pm_call -> World -> option error * World
}.

Inductive outcome (A : Type) :=
| Return (a : A)
| Raise (e : error)
| Exit (code : Z).

Arguments Return {A} a.
Arguments Raise {A} e.
Arguments Exit {A} code.

(** The value of an outcome under a function, for reading results. *)
Definition outcome_map {A B} (f : A -> B) (o : outcome A) : outcome B :=
  match o with
  | Return a => Return (f a)
  | Raise e => Raise e
  | Exit c => Exit c
  end.

Notation "f <$> o" := (outcome_map f o) (at level 60, right associativity).

Section Monad.
Context {P : Platform}.

Record State := mkState { world : World; trace : list event }.

Definition M (A : Type) := State -> outcome A * State.

Definition ret {A} (a : A) : M A := fun st => (Return a, st).

Definition bind {A B} (m : M A) (k : A -> M B) : M B :=
  fun st =>
    match m st with
    | (Return a, st') => k a st'
    | (Raise e, st') => (Raise e, st')
    | (Exit c, st') => (Exit c, st')
    end.

Definition raise {A} (e : error) : M A := fun st => (Raise e, st).

(** [sys.exit(code)] *)
Definition sys_exit {A} (code : Z) : M A := fun st => (Exit code, st).

(** [try: body  except Exception as e: handler(e)].  A handler for a
    narrower class re-raises what it does not match.  What [body] did
    before it raised stays done; [Exit] is not caught. *)
Definition try_except {A} (body : M A) (handler : error -> M A) : M A :=
  fun st =>
    match body st with
    | (Raise e, st') => handler e st'
    | r => r
    end.

Definition emit (ev : event) : M unit :=
  fun st => (Return tt, mkState (world st) (trace st ++ [ev])).

Definition print (line : str) : M unit := emit (Stdout line).

Definition now : M Z :=
  fun st =>
    let '(t, w) := datetime_now (world st) in
    (Return t, mkState w (trace st)).

Definition exists_ (p : Path) : M bool :=
  fun st => (Return (path_exists p (world st)), st).

Definition call (ev : event) (op : World -> option error * World) : M unit :=
  fun st =>
    let '(r, w) := op (world st) in
    let st' := mkState w (trace st ++ [ev]) in
    match r with
    | None => (Return tt, st')
    | Some e => (Raise e, st')
    end.

Definition run_checked (cmd : list str) (capture_output : bool) : M unit :=
  call (SubprocessRun cmd capture_output) (subprocess_run cmd capture_output).

Definition do_import_papermill : M unit :=
  call ImportPapermill import_papermill.

Definition do_pm_execute_notebook (c : pm_call) : M unit :=
  call (PmExecuteNotebook c) (pm_execute_notebook c).

(** [for x in xs: s = body(x, s)] *)
Fixpoint for_each {A S} (xs : list A) (body : A -> S -> M S) (s : S) : M S :=
  match xs with
  | [] => ret s
  | x :: xs' => bind (body x s) (for_each xs' body)
  end.

(** [for x in xs: body(x)] *)
Fixpoint for_each_ {A} (xs : list A) (body : A -> M unit) : M unit :=
  match xs with
  | [] => ret tt
  | x :: xs' => bind (body x) (fun _ => for_each_ xs' body)
  end.

(** Exit status of [python script.py] when the script body ends with
    the given outcome: falling off the end is 0, [sys.exit(c)] is [c],
    an uncaught exception is a traceback and status 1. *)
Definition exit_status {A} (o : outcome A) : Z :=
  match o with
  | Return _ => 0
  | Raise _ => 1
  | Exit c => c
  end.

End Monad.

Declare Scope py_scope.
Delimit Scope py_scope with py.
Notation "x <- c ;; k" := (bind c (fun x => k))
  (at level 61, c at next level, right associativity) : py_scope.
Notation "c ;; k" := (bind c (fun _ => k))
  (at level 61, right associativity) : py_scope.
Open Scope py_scope.

Definition strftime_fmt : str := lit "%Y-%m-%d %H:%M:%S".
Definition banner : str := str_mul (lit "=") 70.

Definition SUCCESS : str := lit "SUCCESS".
Definition FAILED : str := lit "FAILED".
Definition SKIPPED : str := lit "SKIPPED".

(** ** scripts/run_all_notebooks.py *)

Module RunAllNotebooks.
Section Script.
Context {P : Platform}.

Definition default_timeout : Z := 3600.
Definition default_allow_errors : bool := false.

Definition command (notebook_path : Path) (timeout : Z) (allow_errors : bool)
  : list str :=
  let cmd :=
    [ lit "jupyter"; lit "nbconvert";
      lit "--to"; lit "notebook";
      lit "--execute";
      lit "--inplace";
      lit "--ExecutePreprocessor.timeout=" ++ str_of_int timeout;
      str_of_path notebook_path ] in
  if allow_errors
  then cmd ++ [lit "--ExecutePreprocessor.allow_errors=True"]
  else cmd.

Definition run_notebook (notebook_path : Path) (timeout : Z)
    (allow_errors : bool) : M bool :=
  print (nl ++ banner);;
  print (lit "📓 Executing: " ++ name notebook_path);;
  print banner;;
  t <- now;;
  print (lit "Started at: " ++ strftime t strftime_fmt);;
  try_except
    (run_checked (command notebook_path timeout allow_errors) true;;
     print (lit "✅ SUCCESS: " ++ name notebook_path);;
     t <- now;;
     print (lit "Completed at: " ++ strftime t strftime_fmt);;
     ret true)
    (fun e =>
       match e with
       | CalledProcessError _ _ stderr =>
           print (lit "❌ FAILED: " ++ name notebook_path);;
           print (lit "Error: " ++ stderr);;
           ret false
       | _ =>
           print (lit "❌ ERROR: " ++ name notebook_path);;
           print (lit "Error: " ++ str_exc e);;
           ret false
       end).

Definition notebooks : list str :=
  [ lit "regression.ipynb";
    lit "clustering.ipynb";
    lit "anomaly-detection.ipynb";
    lit "association.ipynb";
    lit "time-series-forecasting.ipynb" ].

Definition notebooks_dir : Path :=
  let project_root := parent (parent (path_of_str dunder_file)) in
  truediv project_root (lit "notebooks").

(** The body of the loop of [main]. *)
Definition execute_one (notebook_name : str) (results : dict str)
  : M (dict str) :=
  let notebook_path := truediv notebooks_dir notebook_name in
  found <- exists_ notebook_path;;
  if negb found then
    print (lit "⚠️  SKIP: " ++ notebook_name ++ lit " (not found)");;
    ret (dict_set results notebook_name SKIPPED)
  else
    success <- run_notebook notebook_path 1800 default_allow_errors;;
    ret (dict_set results notebook_name (if success then SUCCESS else FAILED)).

(** [main] up to the end of the loop. *)
Definition execute_all (notebooks : list str) : M (Z * dict str) :=
  print (lit "🚀 PyCaret Notebooks Batch Executor");;
  print banner;;
  start_time <- now;;
  results <- for_each notebooks execute_one [];;
  ret (start_time, results).

Definition item_line (item : str * str) : str :=
  let '(notebook, status) := item in
  let emoji :=
    if str_eqb status SUCCESS then lit "✅"
    else if str_eqb status FAILED then lit "❌"
    else lit "⚠️" in
  emoji ++ lit " " ++ notebook ++ lit ": " ++ status.

(** [main] from "Print summary" on. *)
Definition summary (notebooks : list str) (start_time : Z)
    (results : dict str) : M unit :=
  end_time <- now;;
  let duration := (end_time - start_time)%Z in
  print (nl ++ banner);;
  print (lit "📊 EXECUTION SUMMARY");;
  print banner;;
  let success_count := sum_ones (fun status => str_eqb status SUCCESS) (values results) in
  let failed_count := sum_ones (fun status => str_eqb status FAILED) (values results) in
  let skipped_count := sum_ones (fun status => str_eqb status SKIPPED) (values results) in
  for_each_ (items results) (fun item => print (item_line item));;
  print (nl ++ banner);;
  print (lit "✅ Successful: " ++ str_of_nat success_count ++ lit "/" ++ str_of_nat (List.length notebooks));;
  print (lit "❌ Failed: " ++ str_of_nat failed_count ++ lit "/" ++ str_of_nat (List.length notebooks));;
  print (lit "⚠️  Skipped: " ++ str_of_nat skipped_count ++ lit "/" ++ str_of_nat (List.length notebooks));;
  print (lit "⏱️  Total time: " ++ str_timedelta duration);;
  print banner;;
  if (0 <? failed_count)%nat then
    print (nl ++ lit "⚠️  Some notebooks failed. Check the output above for details.");;
    sys_exit 1
  else
    print (nl ++ lit "🎉 All notebooks executed successfully!");;
    print (nl ++ lit "Next steps:");;
    print (lit "1. Review notebooks to see all outputs");;
    print (lit "2. Check outputs/ directory for saved models");;
    print (lit "3. Record your video tutorials");;
    sys_exit 0.

Definition main_on (notebooks : list str) : M unit :=
  r <- execute_all notebooks;;
  summary notebooks (fst r) (snd r).

Definition main : M unit := main_on notebooks.

End Script.
End RunAllNotebooks.

(** ** scripts/quick_test.py *)

Module QuickTest.
Section Script.
Context {P : Platform}.

Definition default_timeout : Z := 600.
Definition default_allow_errors : bool := false.

Definition command (notebook_path : Path) (timeout : Z) (allow_errors : bool)
  : list str :=
  let cmd :=
    [ lit "jupyter"; lit "nbconvert";
      lit "--to"; lit "notebook";
      lit "--execute";
      lit "--ExecutePreprocessor.timeout=" ++ str_of_int timeout;
      str_of_path notebook_path;
      lit "--output"; str_of_path notebook_path ] in
  if allow_errors
  then cmd ++ [lit "--ExecutePreprocessor.allow_errors=True"]
  else cmd.

(** [e.stderr[-500:] if len(e.stderr) > 500 else e.stderr] *)
Definition error_msg (stderr : str) : str :=
  if (500 <? len stderr)%Z then slice_from stderr (-500) else stderr.

Definition run_notebook (notebook_path : Path) (timeout : Z)
    (allow_errors : bool) : M bool :=
  print (nl ++ banner);;
  print (lit "🚀 Testing: " ++ name notebook_path);;
  print banner;;
  t <- now;;
  print (lit "Started at: " ++ strftime t strftime_fmt);;
  try_except
    (run_checked (command notebook_path timeout allow_errors) true;;
     print (lit "✅ SUCCESS");;
     t <- now;;
     print (lit "Completed at: " ++ strftime t strftime_fmt);;
     ret true)
    (fun e =>
       match e with
       | CalledProcessError _ _ stderr =>
           print (lit "❌ FAILED");;
           print (lit "Error: ..." ++ error_msg stderr);;
           ret false
       | _ =>
           print (lit "❌ ERROR: " ++ str_exc e);;
           ret false
       end).

Definition notebooks : list str :=
  [ lit "regression.ipynb";
    lit "clustering.ipynb";
    lit "anomaly-detection.ipynb";
    lit "association.ipynb";
    lit "time-series-forecasting.ipynb" ].

Definition notebooks_dir : Path :=
  let project_root := parent (parent (path_of_str dunder_file)) in
  truediv project_root (lit "notebooks").

(** The body of the loop of [main]. *)
Definition execute_one (notebook_name : str) (results : dict str)
  : M (dict str) :=
  let notebook_path := truediv notebooks_dir notebook_name in
  found <- exists_ notebook_path;;
  if negb found then
    print (lit "⚠️  SKIP: " ++ notebook_name ++ lit " (not found)");;
    ret (dict_set results notebook_name SKIPPED)
  else
    success <- run_notebook notebook_path 600 false;;
    ret (dict_set results notebook_name (if success then SUCCESS else FAILED)).

(** [main] up to the end of the loop. *)
Definition execute_all (notebooks : list str) : M (Z * dict str) :=
  print (lit "⚡ PyCaret Quick Test Runner");;
  print banner;;
  print (lit "Testing with:");;
  print (lit "  - 10 min timeout per notebook (vs 30 min in full suite)");;
  print (lit "  - Sequential execution");;
  print [];;
  print (lit "💡 TIP: To speed up notebooks further, manually edit them to:");;
  print (lit "   1. Add 'fold=3' parameter to setup() calls");;
  print (lit "   2. Use compare_models(n_select=1) to test fewer models");;
  print banner;;
  start_time <- now;;
  results <- for_each notebooks execute_one [];;
  ret (start_time, results).

Definition item_line (item : str * str) : str :=
  let '(notebook, status) := item in
  let emoji :=
    if str_eqb status SUCCESS then lit "✅"
    else if str_eqb status FAILED then lit "❌"
    else lit "⚠️" in
  emoji ++ lit " " ++ notebook ++ lit ": " ++ status.

(** [main] from "Print summary" on. *)
Definition summary (notebooks : list str) (start_time : Z)
    (results : dict str) : M unit :=
  end_time <- now;;
  let duration := (end_time - start_time)%Z in
  print (nl ++ banner);;
  print (lit "📊 QUICK TEST SUMMARY");;
  print banner;;
  let success_count := sum_ones (fun s => str_eqb s SUCCESS) (values results) in
  let failed_count := sum_ones (fun s => str_eqb s FAILED) (values results) in
  for_each_ (items results) (fun item => print (item_line item));;
  print (nl ++ banner);;
  print (lit "✅ Passed: " ++ str_of_nat success_count ++ lit "/" ++ str_of_nat (List.length notebooks));;
  print (lit "❌ Failed: " ++ str_of_nat failed_count ++ lit "/" ++ str_of_nat (List.length notebooks));;
  print (lit "⏱️  Total time: " ++ str_timedelta duration);;
  print banner;;
  if (0 <? failed_count)%nat then
    print (nl ++ lit "⚠️  Some tests failed.");;
    print (lit "💡 These failures may be due to timeout (10 min limit).");;
    print (lit "   Run 'uv run scripts/run_all_notebooks.py' for full validation (30 min timeout).");;
    sys_exit 1
  else
    print (nl ++ lit "🎉 All quick tests passed!");;
    sys_exit 0.

Definition main_on (notebooks : list str) : M unit :=
  r <- execute_all notebooks;;
  summary notebooks (fst r) (snd r).

Definition main : M unit := main_on notebooks.

End Script.
End QuickTest.

(** ** scripts/run_notebooks_papermill.py *)

Module RunNotebooksPapermill.
Section Script.
Context {P : Platform}.

Definition check_papermill_installed : M bool :=
  try_except
    (do_import_papermill;;
     ret true)
    (fun e =>
       match e with
       | ImportError _ => ret false
       | _ => raise e
       end).

Definition install_papermill : M bool :=
  print (lit "📦 Installing papermill...");;
  try_except
    (run_checked [lit "uv"; lit "add"; lit "papermill"] false;;
     print (lit "✅ Papermill installed successfully");;
     ret true)
    (fun e =>
       match e with
       | CalledProcessError _ _ _ =>
           print (lit "❌ Failed to install papermill");;
           ret false
       | _ => raise e
       end).

Definition run_notebook_papermill (input_path : Path)
    (output_path : option Path) : M bool :=
  let output_path :=
    match output_path with
    | None => input_path
    | Some p => p
    end in
  print (nl ++ banner);;
  print (lit "📓 Executing: " ++ name input_path);;
  print banner;;
  t <- now;;
  print (lit "Started at: " ++ strftime t strftime_fmt);;
  try_except
    (do_import_papermill;;
     do_pm_execute_notebook
       (mkPmCall (str_of_path input_path) (str_of_path output_path)
          (lit "python3") true true);;
     print (lit "✅ SUCCESS: " ++ name input_path);;
     t <- now;;
     print (lit "Completed at: " ++ strftime t strftime_fmt);;
     ret true)
    (fun e =>
       print (lit "❌ FAILED: " ++ name input_path);;
       print (lit "Error: " ++ str_exc e);;
       ret false).

Definition notebooks : list str :=
  [ lit "regression.ipynb";
    lit "clustering.ipynb";
    lit "anomaly-detection.ipynb";
    lit "association.ipynb";
    lit "time-series-forecasting.ipynb" ].

Definition notebooks_dir : Path :=
  let project_root := parent (parent (path_of_str dunder_file)) in
  truediv project_root (lit "notebooks").

(** The body of the loop of [main]. *)
Definition execute_one (notebook_name : str) (results : dict str)
  : M (dict str) :=
  let notebook_path := truediv notebooks_dir notebook_name in
  found <- exists_ notebook_path;;
  if negb found then
    print (lit "⚠️  SKIP: " ++ notebook_name ++ lit " (not found)");;
    ret (dict_set results notebook_name SKIPPED)
  else
    success <- run_notebook_papermill notebook_path None;;
    ret (dict_set results notebook_name (if success then SUCCESS else FAILED)).

(** [main] before the loop: the check for papermill. *)
Definition prerequisites : M unit :=
  print (lit "🚀 PyCaret Notebooks Executor (Papermill)");;
  print banner;;
  installed <- check_papermill_installed;;
  if negb installed then
    print (lit "⚠️  Papermill not found");;
    ok <- install_papermill;;
    if negb ok then
      print (nl ++ lit "❌ Cannot proceed without papermill");;
      print (lit "Please install manually: uv add papermill");;
      sys_exit 1
    else ret tt
  else ret tt.

(** [main] from "Track results" to the end of the loop. *)
Definition execute_all (notebooks : list str) : M (Z * dict str) :=
  start_time <- now;;
  results <- for_each notebooks execute_one [];;
  ret (start_time, results).

Definition item_line (item : str * str) : str :=
  let '(notebook, status) := item in
  let emoji :=
    if str_eqb status SUCCESS then lit "✅"
    else if str_eqb status FAILED then lit "❌"
    else lit "⚠️" in
  emoji ++ lit " " ++ notebook ++ lit ": " ++ status.

(** [main] from "Print summary" on. *)
Definition summary (notebooks : list str) (start_time : Z)
    (results : dict str) : M unit :=
  end_time <- now;;
  let duration := (end_time - start_time)%Z in
  print (nl ++ banner);;
  print (lit "📊 EXECUTION SUMMARY");;
  print banner;;
  let success_count := sum_ones (fun status => str_eqb status SUCCESS) (values results) in
  let failed_count := sum_ones (fun status => str_eqb status FAILED) (values results) in
  let skipped_count := sum_ones (fun status => str_eqb status SKIPPED) (values results) in
  for_each_ (items results) (fun item => print (item_line item));;
  print (nl ++ banner);;
  print (lit "✅ Successful: " ++ str_of_nat success_count ++ lit "/" ++ str_of_nat (List.length notebooks));;
  print (lit "❌ Failed: " ++ str_of_nat failed_count ++ lit "/" ++ str_of_nat (List.length notebooks));;
  print (lit "⚠️  Skipped: " ++ str_of_nat skipped_count ++ lit "/" ++ str_of_nat (List.length notebooks));;
  print (lit "⏱️  Total time: " ++ str_timedelta duration);;
  print banner;;
  if (0 <? failed_count)%nat then
    print (nl ++ lit "⚠️  Some notebooks failed. Check the output above for details.");;
    sys_exit 1
  else
    print (nl ++ lit "🎉 All notebooks executed successfully!");;
    print (nl ++ lit "Next steps:");;
    print (lit "1. Review notebooks to see all outputs");;
    print (lit "2. Check outputs/ directory for saved models");;
    print (lit "3. Record your video tutorials");;
    sys_exit 0.

Definition main_on (notebooks : list str) : M unit :=
  prerequisites;;
  r <- execute_all notebooks;;
  summary notebooks (fst r) (snd r).

Definition main : M unit := main_on notebooks.

End Script.
End RunNotebooksPapermill.

(** ** Observations on a run *)

(** The lines written to standard output, in order. *)
Definition printed (tr : list event) : list str :=
  flat_map (fun ev => match ev with Stdout l => [l] | _ => [] end) tr.

(** Everything a run did apart from printing. *)
Definition is_external (ev : event) : bool :=
  match ev with
  | Stdout _ => false
  | _ => true
  end.

Definition external (tr : list event) : list event := filter is_external tr.

(** The number of outcomes of one kind, as [main] computes it. *)
Definition count_status (s : str) (results : dict str) : nat :=
  sum_ones (fun status => str_eqb status s) (values results).

(** What the loop did for one work item: the outcome recorded and the
    events of that iteration. *)
Record item_run := mkItemRun {
  item_name : str;
  item_status : str;
  item_events : list event
}.

Definition item_entry (r : item_run) : str * str := (item_name r, item_status r).

Definition skip_line (notebook_name : str) : str :=
  lit "⚠️  SKIP: " ++ notebook_name ++ lit " (not found)".

(** The diagnostic each runner prints for a fault. *)
Definition run_all_failure (notebook_path : Path) (e : error) : list event :=
  match e with
  | CalledProcessError _ _ stderr =>
      [Stdout (lit "❌ FAILED: " ++ name notebook_path);
       Stdout (lit "Error: " ++ stderr)]
  | _ =>
      [Stdout (lit "❌ ERROR: " ++ name notebook_path);
       Stdout (lit "Error: " ++ str_exc e)]
  end.

Definition quick_test_failure (e : error) : list event :=
  match e with
  | CalledProcessError _ _ stderr =>
      [Stdout (lit "❌ FAILED");
       Stdout (lit "Error: ..." ++ QuickTest.error_msg stderr)]
  | _ =>
      [Stdout (lit "❌ ERROR: " ++ str_exc e)]
  end.

Definition papermill_failure (input_path : Path) (e : error) : list event :=
  [Stdout (lit "❌ FAILED: " ++ name input_path);
   Stdout (lit "Error: " ++ str_exc e)].

(** What one iteration of the loop may leave behind: a missing notebook is
    recorded as skipped and only the skip line is printed; otherwise the
    runner was invoked, the notebook is recorded as succeeded or failed, and
    the external calls of the iteration are those that [calls] allows. *)
Definition item_ok (calls : str -> list event -> Prop) (r : item_run) : Prop :=
  (item_status r = SKIPPED /\ item_events r = [Stdout (skip_line (item_name r))])
  \/ ((item_status r = SUCCESS \/ item_status r = FAILED)
      /\ calls (item_name r) (external (item_events r))).

(** The dictionary after the loop has recorded [runs], starting from [d]. *)
Definition record_all (d : dict str) (runs : list item_run) : dict str :=
  fold_left (fun d r => dict_set d (item_name r) (item_status r)) runs d.

(** The external calls of one attempted item, per script. *)
Section Calls.
Context {P : Platform}.

Definition run_all_calls (notebook_name : str) (evs : list event) : Prop :=
  evs = [SubprocessRun
           (RunAllNotebooks.command
              (truediv RunAllNotebooks.notebooks_dir notebook_name) 1800 false)
           true].

Definition quick_test_calls (notebook_name : str) (evs : list event) : Prop :=
  evs = [SubprocessRun
           (QuickTest.command
              (truediv QuickTest.notebooks_dir notebook_name) 600 false)
           true].

Definition papermill_call (notebook_name : str) : pm_call :=
  let notebook_path :=
    str_of_path (truediv RunNotebooksPapermill.notebooks_dir notebook_name) in
  mkPmCall notebook_path notebook_path (lit "python3") true true.

Definition papermill_calls (notebook_name : str) (evs : list event) : Prop :=
  evs = [ImportPapermill]
  \/ evs = [ImportPapermill; PmExecuteNotebook (papermill_call notebook_name)].

End Calls.

(** The items for which the runner was invoked. *)
Definition attempted (r : item_run) : bool :=
  negb (str_eqb (item_status r) SKIPPED).

(** What the check for papermill leaves in the trace: its opening, and the
    installation attempt. *)
Definition uv_add_papermill : list str := [lit "uv"; lit "add"; lit "papermill"].

Definition papermill_opening : list event :=
  [Stdout (lit "🚀 PyCaret Notebooks Executor (Papermill)"); Stdout banner;
   ImportPapermill].

Definition papermill_installing : list event :=
  [Stdout (lit "⚠️  Papermill not found");
   Stdout (lit "📦 Installing papermill...");
   SubprocessRun uv_add_papermill false].

(** ** A test double for the outside

    The world is the clock, in seconds; every external call takes [cost]
    seconds.  [present] answers the existence checks, [run] the launched
    processes, [imp] the import of papermill and [pm] the calls of
    [pm.execute_notebook]. *)
Definition stub (present : Path -> bool) (run : list str -> option error)
    (imp : option error) (pm : pm_call -> option error) (cost : Z) : Platform :=
  {| World := Z;
     dunder_file := lit "/srv/repo/scripts/run.py";
     datetime_now := fun w => (w, w);
     strftime := fun t _ => str_of_int t;
     str_timedelta := fun d => str_of_int d;
     path_exists := fun p _ => present p;
     subprocess_run := fun cmd _ w => (run cmd, (w + cost)%Z);
     import_papermill := fun w => (imp, w);
     pm_execute_notebook := fun c w => (pm c, (w + cost)%Z) |}.

Definition stub_start (P : Platform) (w : @World P) : @State P := mkState w [].

(** Worlds for the examples: everything present and succeeding; one
    notebook missing; every launched process failing with a given error
    text; papermill neither importable nor installable. *)
Definition healthy : Platform :=
  stub (fun _ => true) (fun _ => None) None (fun _ => None) 10.

Definition without (missing : list str) : Platform :=
  stub (fun p => negb (existsb (str_eqb (name p)) missing))
    (fun _ => None) None (fun _ => None) 10.

Definition failing (stderr : str) : Platform :=
  stub (fun _ => true)
    (fun _ => Some (CalledProcessError (lit "Command returned non-zero exit status 1.") 1 stderr))
    None
    (fun _ => Some (OtherException stderr)) 10.

Definition no_papermill : Platform :=
  stub (fun _ => true)
    (fun _ => Some (CalledProcessError (lit "Command returned non-zero exit status 2.") 2 []))
    (Some (ImportError (lit "No module named 'papermill'")))
    (fun _ => None) 10.





(** An error text of 501 characters. *)
Definition long_stderr : str := lit "A" ++ str_mul (lit "b") 500.

Definition regression : str := lit "regression.ipynb".
Definition clustering : str := lit "clustering.ipynb".
Definition association : str := lit "association.ipynb".

(** ** Further observations *)

(** The outcomes recorded for notebooks that were found. *)
Definition not_skipped (item : str * str) : bool :=
  negb (str_eqb (snd item) SKIPPED).

Definition is_import (ev : event) : bool :=
  match ev with
  | ImportPapermill => true
  | _ => false
  end.

Definition is_pm_execute (ev : event) : bool :=
  match ev with
  | PmExecuteNotebook _ => true
  | _ => false
  end.

(** An exception that [except subprocess.CalledProcessError] lets through. *)
Definition not_called_process_error (e : error) : Prop :=
  match e with
  | CalledProcessError _ _ _ => False
  | _ => True
  end.

(** An exception that [except ImportError] lets through. *)
Definition not_import_error (e : error) : Prop :=
  match e with
  | ImportError _ => False
  | _ => True
  end.


Definition no_uv : Platform :=
  stub (fun _ => true)
    (fun _ => Some (OtherException (lit "[Errno 2] No such file or directory: 'uv'")))
    (Some (ImportError (lit "No module named 'papermill'")))
    (fun _ => None) 10.

Definition broken_papermill : Platform :=
  stub (fun _ => true) (fun _ => None)
    (Some (OtherException (lit "module 'nbformat' has no attribute 'v4'")))
    (fun _ => None) 10.

Definition never_importable : Platform :=
  stub (fun _ => true) (fun _ => None)
    (Some (ImportError (lit "No module named 'papermill'")))
    (fun _ => None) 10.


(** An iteration of run_notebooks_papermill.py in which papermill could not
    be imported. *)
Definition skipped_or_import_failed (r : item_run) : Prop :=
  (item_status r = SKIPPED /\ item_events r = [Stdout (skip_line (item_name r))])
  \/ (item_status r = FAILED /\ external (item_events r) = [ImportPapermill]).

Definition pm_executions (tr : list event) : list event := filter is_pm_execute tr.

(** ** scripts/download_datasets.py

    Two more operations of the outside: [Path.mkdir(parents=True,
    exist_ok=True)], which may raise, and the text that a launched process
    writes to its standard output, which [subprocess.run] captures. *)
Class Downloads (P : Platform) := {
  mkdir_parents : Path -> World -> option error * World;
  captured_stdout : list str -> World -> str
}.

Module DownloadDatasets.
Section Script.
Context {P : Platform} {D : Downloads P}.

(** [subprocess.run(cmd, check=True, capture_output=True, text=True)],
    giving [result.stdout]. *)
Definition run_capturing (cmd : list str) : M str :=
  fun st =>
    let out := captured_stdout cmd (world st) in
    match run_checked cmd true st with
    | (Return _, st') => (Return out, st')
    | (Raise e, st') => (Raise e, st')
    | (Exit c, st') => (Exit c, st')
    end.

Definition mkdir (p : Path) : M unit :=
  fun st =>
    let '(r, w) := mkdir_parents p (world st) in
    let st' := mkState w (trace st) in
    match r with
    | None => (Return tt, st')
    | Some e => (Raise e, st')
    end.

Definition run_command (cmd : list str) : M bool :=
  try_except
    (stdout <- run_capturing cmd;;
     print stdout;;
     ret true)
    (fun e =>
       match e with
       | CalledProcessError _ _ stderr =>
           print (lit "Error: " ++ stderr);;
           ret false
       | _ => raise e
       end).

Definition banner60 : str := str_mul (lit "=") 60.

Definition command (dataset : str) (output_dir : Path) : list str :=
  [ lit "kaggle"; lit "datasets"; lit "download";
    lit "-d"; dataset;
    lit "-p"; str_of_path output_dir;
    lit "--unzip" ].

Definition download_dataset (dataset : str) (output_dir : Path)
    (description : str) : M bool :=
  print (nl ++ banner60);;
  print (lit "📥 " ++ description);;
  print banner60;;
  mkdir output_dir;;
  let cmd := command dataset output_dir in
  run_command cmd.

(** One entry of [datasets]: the values under "name", "dir" and "desc". *)
Record dataset := mkDataset { ds_name : str; ds_dir : Path; ds_desc : str }.

Definition datasets_dir : Path :=
  let project_root := parent (parent (path_of_str dunder_file)) in
  truediv project_root (lit "datasets").

Definition datasets : list dataset :=
  [ mkDataset (lit "camnugent/california-housing-prices")
      (truediv datasets_dir (lit "regression"))
      (lit "Regression: California Housing Prices");
    mkDataset (lit "vjchoudhary7/customer-segmentation-tutorial-in-python")
      (truediv datasets_dir (lit "clustering"))
      (lit "Clustering: Customer Segmentation");
    mkDataset (lit "mlg-ulb/creditcardfraud")
      (truediv datasets_dir (lit "anomaly"))
      (lit "Anomaly Detection: Credit Card Fraud");
    mkDataset (lit "heeraldedhia/groceries-dataset")
      (truediv datasets_dir (lit "association"))
      (lit "Association Rules: Groceries");
    mkDataset (lit "robikscube/hourly-energy-consumption")
      (truediv datasets_dir (lit "timeseries"))
      (lit "Time Series: Hourly Energy Consumption") ].

(** The body of the loop of [main], on [success_count] and [failed]. *)
Definition download_one (d : dataset) (acc : nat * list str)
    : M (nat * list str) :=
  let '(success_count, failed) := acc in
  ok <- download_dataset (ds_name d) (ds_dir d) (ds_desc d);;
  if ok then
    let success_count := success_count + 1 in
    print (lit "✅ Downloaded to: " ++ str_of_path (ds_dir d));;
    ret (success_count, failed)
  else
    let failed := failed ++ [ds_desc d] in
    print (lit "❌ Failed to download");;
    ret (success_count, failed).

(** [main] up to the end of the loop. *)
Definition download_all (datasets : list dataset) : M (nat * list str) :=
  print (lit "🚀 PyCaret Datasets Downloader");;
  print banner60;;
  for_each datasets download_one (0, []).

(** [main] from "Summary" on. *)
Definition summary (datasets : list dataset) (success_count : nat)
    (failed : list str) : M unit :=
  print (nl ++ banner60);;
  print (lit "📊 DOWNLOAD SUMMARY");;
  print banner60;;
  print (lit "✅ Successful: " ++ str_of_nat success_count ++ lit "/"
         ++ str_of_nat (List.length datasets));;
  match failed with
  | _ :: _ =>
      print (lit "❌ Failed: " ++ str_of_nat (List.length failed));;
      for_each_ failed (fun item => print (lit "   - " ++ item));;
      print (nl ++ lit "Troubleshooting:");;
      print (lit "1. Check ~/.kaggle/kaggle.json exists");;
      print (lit "2. Verify permissions: chmod 600 ~/.kaggle/kaggle.json");;
      print (lit "3. Get new API token from https://www.kaggle.com/account");;
      sys_exit 1
  | [] =>
      print (nl ++ lit "🎉 All datasets downloaded successfully!");;
      print (nl ++ lit "Datasets location: " ++ str_of_path datasets_dir);;
      print (nl ++ lit "Next steps:");;
      print (lit "1. Open notebooks in Jupyter: uv run jupyter notebook");;
      print (lit "2. Modify each notebook to use the new datasets");;
      print (lit "3. Run all cells and save outputs")
  end.

Definition main_on (datasets : list dataset) : M unit :=
  r <- download_all datasets;;
  summary datasets (fst r) (snd r).

Definition main : M unit := main_on datasets.

End Script.
End DownloadDatasets.

(** What happened to each dataset of a run that went through: whether its
    download succeeded. *)
Definition downloaded (oks : list bool) : nat := count_occ bool_dec oks true.

Definition failed_of (ds : list DownloadDatasets.dataset) (oks : list bool)
    : list str :=
  map (fun p => DownloadDatasets.ds_desc (fst p))
    (filter (fun p => negb (snd p)) (combine ds oks)).

Definition kaggle_launch (d : DownloadDatasets.dataset) : event :=
  SubprocessRun
    (DownloadDatasets.command (DownloadDatasets.ds_name d) (DownloadDatasets.ds_dir d))
    true.

(** A test double for the two further operations: directories can always
    be made, and a process prints nothing. *)
Definition quiet_downloads (P : Platform) : Downloads P :=
  {| mkdir_parents := fun _ w => (None, w);
     captured_stdout := fun _ _ => [] |}.

Definition read_only_disk (P : Platform) : Downloads P :=
  {| mkdir_parents := fun _ w =>
       (Some (OtherException (lit "[Errno 13] Permission denied")), w);
     captured_stdout := fun _ _ => [] |}.

(** A world without the [kaggle] program. *)
Definition no_kaggle : Platform :=
  stub (fun _ => true)
    (fun _ => Some (OtherException (lit "[Errno 2] No such file or directory: 'kaggle'")))
    None (fun _ => None) 10.

(** ** More of Python's [str] *)

Module PyText.

(** [s.split(sep)] for a separator of one character. *)
Fixpoint split (sep : char) (s : str) : list str :=
  match s with
  | [] => [[]]
  | c :: s' =>
      if char_eqb c sep then [] :: split sep s'
      else
        match split sep s' with
        | [] => [[c]]
        | l :: ls => (c :: l) :: ls
        end
  end.

(** The code points for which [str.isspace()] holds. *)
Definition whitespace : list char :=
  [ 9; 10; 11; 12; 13; 28; 29; 30; 31; 32; 133; 160; 5760;
    8192; 8193; 8194; 8195; 8196; 8197; 8198; 8199; 8200; 8201; 8202;
    8232; 8233; 8239; 8287; 12288 ]%N.

Definition isspace (c : char) : bool := existsb (char_eqb c) whitespace.

(** [s.lstrip()] *)
Fixpoint lstrip (s : str) : str :=
  match s with
  | [] => []
  | c :: s' => if isspace c then lstrip s' else s
  end.

(** [s.replace(old, new)]: the occurrences of [old] are found from left
    to right and do not overlap.  [skip] counts the characters of an
    occurrence that are still to be passed over. *)
Fixpoint replace_from (skip : nat) (old new s : str) : str :=
  match s with
  | [] => []
  | c :: s' =>
      match skip with
      | S k => replace_from k old new s'
      | O =>
          if startswith s old
          then new ++ replace_from (List.length old - 1) old new s'
          else c :: replace_from 0 old new s'
      end
  end.

Definition replace (s old new : str) : str :=
  match old with
  | [] => new ++ flat_map (fun c => c :: new) s
  | _ :: _ => replace_from 0 old new s
  end.

End PyText.

Import PyText.

(** ** scripts/optimize_notebooks.py

    A notebook cell as the script sees it: its type, its source, and the
    rest of the cell, which the script does not touch.  The script reads a
    notebook with [nbformat.read], goes through [nb.cells] changing
    [cell.source] in place, and writes the notebook back; what is modelled
    is what it does to the cells and what it prints meanwhile. *)

Module OptimizeNotebooks.
Section Script.
Variable Rest : Type.

Record cell := mkCell { cell_type : str; source : str; rest : Rest }.

Definition set_source (c : cell) (s : str) : cell :=
  mkCell (cell_type c) s (rest c).

(** [for cell in nb.cells: ...], where the body may assign [cell.source]
    and print. *)
Fixpoint for_cells (body : cell -> cell * list str) (cells : list cell)
    : list cell * list str :=
  match cells with
  | [] => ([], [])
  | c :: cs =>
      let '(c', out) := body c in
      let '(cs', outs) := for_cells body cs in
      (c' :: cs', out ++ outs)
  end.

(** The body of the loop over clustering.ipynb. *)
Definition clustering_cell (c : cell) : cell * list str :=
  if str_eqb (cell_type c) (lit "code") then
    let source := source c in
    if contains (lit "from pycaret.clustering import *") source
       && contains (lit "s = setup(") source
       && negb (contains (lit "fold=") source)
    then
      (set_source c
         (replace source
            (lit "s = setup(data, session_id = 123)")
            (lit "s = setup(data, fold=3, session_id=123)  # fold=3 for faster execution")),
       [lit "  ✓ Updated clustering setup() call"])
    else (c, [])
  else (c, []).

Definition optimize_clustering (cells : list cell) : list cell * list str :=
  for_cells clustering_cell cells.

(** The inner loop over the lines of a time-series cell. *)
Definition add_fold_lines (lines : list str) : list str :=
  fold_left
    (fun new_lines line =>
       let new_lines := new_lines ++ [line] in
       if contains (lit "fh=24,") line then
         let indent := (len line - len (lstrip line))%Z in
         new_lines
         ++ [str_mul (lit " ") (Z.to_nat indent)
             ++ lit "fold=3,  # Reduced from default 10 for faster execution"]
       else new_lines)
    lines [].

(** The body of the loop over time-series-forecasting.ipynb. *)
Definition time_series_cell (c : cell) : cell * list str :=
  if str_eqb (cell_type c) (lit "code") then
    let source := source c in
    if contains (lit "ts_setup = setup(") source
       && negb (contains (lit "fold=") source)
       && contains (lit "fh=24") source
    then
      let lines := split 10%N source in
      let new_lines := add_fold_lines lines in
      (set_source c (join nl new_lines),
       [lit "  ✓ Updated time series setup() call"])
    else (c, [])
  else (c, []).

Definition optimize_time_series (cells : list cell) : list cell * list str :=
  for_cells time_series_cell cells.

End Script.
End OptimizeNotebooks.

(** The number of whitespace characters at the start of a line. *)
Fixpoint leading_whitespace (s : str) : nat :=
  match s with
  | [] => 0
  | c :: s' => if isspace c then S (leading_whitespace s') else 0
  end.

Definition fold_text : str :=
  lit "fold=3,  # Reduced from default 10 for faster execution".

(** The line that the time-series loop inserts after [line]. *)
Definition fold_line (line : str) : str :=
  str_mul (lit " ") (leading_whitespace line) ++ fold_text.

(** What the time-series loop does to one line. *)
Definition with_fold_line (line : str) : list str :=
  if contains (lit "fh=24,") line then [line; fold_line line] else [line].

(** Cells for the examples; the rest of a cell is left empty. *)
Definition code_cell (source : str) : OptimizeNotebooks.cell unit :=
  OptimizeNotebooks.mkCell (lit "code") source tt.

Definition clustering_other_seed : str :=
  lit "from pycaret.clustering import *" ++ nl
  ++ lit "s = setup(data, session_id = 42)".

Definition time_series_last_argument : str :=
  lit "ts_setup = setup(data," ++ nl ++ lit "    fh=24)".

Definition time_series_tabbed : str :=
  lit "ts_setup = setup(data," ++ nl ++ (9%N :: lit " fh=24,") ++ nl ++ lit ")".

(** ** scripts/add_auto_download.py

    The script reads five notebooks in turn; in each it replaces the source
    of the first code cell that loads the notebook's data file by code that
    downloads the data first, and writes the notebook back.  What is
    modelled is the code it generates, what it does to the cells and what
    it prints meanwhile.  Cells are those of the previous script. *)

Module AddAutoDownload.

(** A literal of the template below, in which a backquote stands for a
    double quote (the template has no backquote of its own). *)
Definition litq (s : string) : str :=
  map (fun c => if char_eqb c 96%N then 34%N else c) (lit s).

(** Lines, each ended by a newline. *)
Definition unlines (ls : list str) : str := flat_map (fun l => l ++ nl) ls.

Definition create_download_cell (dataset_name file_path kaggle_dataset : str)
  : str :=
  unlines
    [ lit "import os";
      lit "from pathlib import Path";
      lit "import pandas as pd";
      [];
      lit "# Setup data directory";
      lit "data_dir = Path('../datasets/" ++ dataset_name ++ lit "')";
      lit "data_dir.mkdir(parents=True, exist_ok=True)";
      [];
      lit "data_path = data_dir / '" ++ file_path ++ lit "'";
      [];
      lit "# Download from Kaggle if not already present";
      lit "if not data_path.exists():";
      litq "    print(f`📥 Downloading dataset from Kaggle...`)";
      [];
      lit "    # Check for Kaggle credentials";
      lit "    kaggle_json = Path.home() / '.kaggle' / 'kaggle.json'";
      [];
      lit "    if not kaggle_json.exists():";
      litq "        print(`⚠️  Kaggle credentials not found!`)";
      litq "        print(`\nTo download datasets automatically, you need Kaggle API credentials:`)";
      litq "        print(`1. Go to https://www.kaggle.com/settings`)";
      litq "        print(`2. Scroll to 'API' section and click 'Create New API Token'`)";
      litq "        print(`3. This downloads kaggle.json`)";
      litq "        print(`4. Upload kaggle.json to your home directory:`)";
      litq "        print(`   - In Vertex AI: Upload to /home/jupyter/.kaggle/`)";
      litq "        print(`   - Or set KAGGLE_USERNAME and KAGGLE_KEY environment variables`)";
      litq "        print(`\nFor now, using a backup URL...`)";
      [];
      lit "        # Fallback: Try to download from a direct URL if available";
      lit "        try:";
      lit "            import urllib.request";
      lit "            # Note: This URL is a placeholder - update with actual backup URL if available";
      litq "            backup_url = `https://storage.googleapis.com/pycaret-examples-backup/" ++ dataset_name ++ lit "/" ++ file_path ++ litq "`";
      litq "            print(f`Trying backup URL: {backup_url}`)";
      lit "            urllib.request.urlretrieve(backup_url, data_path)";
      litq "            print(`✅ Downloaded from backup URL`)";
      lit "        except Exception as e:";
      litq "            print(f`❌ Backup download failed: {e}`)";
      litq "            raise Exception(`Please upload kaggle.json or manually download the dataset`)";
      lit "    else:";
      lit "        # Download using Kaggle API";
      lit "        import kaggle";
      litq "        print(f`Downloading from Kaggle: " ++ kaggle_dataset ++ litq "`)";
      lit "        kaggle.api.dataset_download_files(";
      lit "            '" ++ kaggle_dataset ++ lit "',";
      lit "            path=data_dir,";
      lit "            unzip=True,";
      lit "            quiet=False";
      lit "        )";
      litq "        print(f`✅ Dataset downloaded to {data_dir}`)";
      lit "else:";
      litq "    print(f`✅ Dataset already exists at {data_path}`)";
      [];
      lit "# Load the data";
      litq "print(f`\n📊 Loading dataset...`)";
      lit "data = pd.read_csv(data_path)";
      litq "print(f`Dataset shape: {data.shape}`)" ].

Section Script.
Variable Rest : Type.
Local Abbreviation cell := (OptimizeNotebooks.cell Rest).

(** The test of the loops: a code cell that mentions the data file and
    reads a CSV file. *)
Definition loads (file_name : str) (c : cell) : bool :=
  str_eqb (OptimizeNotebooks.cell_type c) (lit "code")
  && contains file_name (OptimizeNotebooks.source c)
  && contains (lit "pd.read_csv") (OptimizeNotebooks.source c).

(** [for i, cell in enumerate(nb.cells): if ...: cell.source = ...;
    print(...); break]: the five loops of the script differ by the data
    file looked for, the code put in and the message. *)
Fixpoint update_cells (file_name download_code message : str)
    (cells : list cell) : list cell * list str :=
  match cells with
  | [] => ([], [])
  | c :: cs =>
      if loads file_name c then
        (OptimizeNotebooks.set_source c download_code :: cs, [message])
      else
        let '(cs', out) := update_cells file_name download_code message cs in
        (c :: cs', out)
  end.

Definition update_regression : list cell -> list cell * list str :=
  update_cells (lit "housing.csv")
    (create_download_cell (lit "regression") (lit "housing.csv")
       (lit "camnugent/california-housing-prices"))
    (lit "  ✓ Added auto-download to regression.ipynb").

Definition update_clustering : list cell -> list cell * list str :=
  update_cells (lit "jewellery.csv")
    (create_download_cell (lit "clustering") (lit "jewellery.csv")
       (lit "PromptCloudHQ/online-jewellery-sales-data"))
    (lit "  ✓ Added auto-download to clustering.ipynb").

(** For the credit card data the file has another name. *)
Definition anomaly_download_code : str :=
  let download_code :=
    create_download_cell (lit "anomaly") (lit "anomaly.csv")
      (lit "mlg-ulb/creditcardfraud") in
  let download_code :=
    replace download_code (lit "'anomaly.csv'") (lit "'creditcard.csv'") in
  replace download_code
    (lit "data_path = data_dir / 'anomaly.csv'")
    (lit "data_path = data_dir / 'creditcard.csv'").

Definition update_anomaly_detection : list cell -> list cell * list str :=
  update_cells (lit "anomaly.csv") anomaly_download_code
    (lit "  ✓ Added auto-download to anomaly-detection.ipynb").

Definition update_association : list cell -> list cell * list str :=
  update_cells (lit "Groceries.csv")
    (create_download_cell (lit "association") (lit "Groceries.csv")
       (lit "heeraldedhia/groceries-dataset"))
    (lit "  ✓ Added auto-download to association.ipynb").

Definition update_time_series_forecasting : list cell -> list cell * list str :=
  update_cells (lit "AEP_hourly.csv")
    (create_download_cell (lit "time-series") (lit "AEP_hourly.csv")
       (lit "robikscube/hourly-energy-consumption"))
    (lit "  ✓ Added auto-download to time-series-forecasting.ipynb").

End Script.
End AddAutoDownload.

(** Cells for the examples. *)
Definition markdown_cell (source : str) : OptimizeNotebooks.cell unit :=
  OptimizeNotebooks.mkCell (lit "markdown") source tt.

Definition housing_loader : str := lit "data = pd.read_csv('housing.csv')".

(** * Properties *)

(** ** Python values *)

Example lit_ascii : lit "ab" = [97%N; 98%N].
Proof. reflexivity. Qed.

Example lit_emoji : lit "✅ x" = [9989%N; 32%N; 120%N].
Proof. reflexivity. Qed.

Example lit_warning : lit "⚠️" = [9888%N; 65039%N].
Proof. reflexivity. Qed.

Example str_of_int_1800 : str_of_int 1800 = lit "1800".
Proof. reflexivity. Qed.

Example slice_tail : slice_from (lit "abcdef") (-2) = lit "ef".
Proof. reflexivity. Qed.

Example path_name :
  name (truediv (truediv (path_of_str (lit "/srv/repo")) (lit "notebooks"))
          (lit "regression.ipynb")) = lit "regression.ipynb".
Proof. reflexivity. Qed.

Example path_two_slashes :
  str_of_path (truediv (parent (parent (path_of_str (lit "//srv/repo/scripts/run.py"))))
                 (lit "notebooks")) = lit "//srv/repo/notebooks".
Proof. reflexivity. Qed.

Example path_three_slashes :
  str_of_path (path_of_str (lit "///srv//repo/./x")) = lit "/srv/repo/x".
Proof. reflexivity. Qed.

Example path_relative_script :
  str_of_path (truediv (parent (parent (path_of_str (lit "scripts/run.py"))))
                 (lit "notebooks")) = lit "notebooks".
Proof. reflexivity. Qed.

Example path_str :
  str_of_path (truediv (parent (parent (path_of_str (lit "/srv/repo/scripts/quick_test.py"))))
                 (lit "notebooks")) = lit "/srv/repo/notebooks".
Proof. reflexivity. Qed.

Lemma str_eqb_refl (s : str) : str_eqb s s = true.
Proof.
  induction s as [|c s IH]; [reflexivity|].
  cbn [str_eqb]. unfold char_eqb. now rewrite N.eqb_refl, IH.
Qed.

Lemma str_eqb_eq (s t : str) : str_eqb s t = true <-> s = t.
Proof.
  split; [|intros ->; apply str_eqb_refl].
  revert t; induction s as [|c s IH]; intros [|d t] H; try discriminate; auto.
  cbn [str_eqb] in H. apply andb_prop in H as [Hc Hs].
  apply N.eqb_eq in Hc. apply IH in Hs. congruence.
Qed.

Lemma app_cons_split {A} (a b f : list A) (x : A) :
  a ++ b ++ x :: f = (a ++ b ++ [x]) ++ f.
Proof. now rewrite <- !app_assoc. Qed.

Lemma startswith_spec (t s : str) :
  startswith t s = true <-> exists post, t = s ++ post.
Proof.
  revert t; induction s as [|c s IH]; intros t.
  - destruct t; cbn; split; eauto.
  - destruct t as [|d t]; cbn [startswith].
    + split; [discriminate | intros [post H]; discriminate].
    + rewrite andb_true_iff, IH. unfold char_eqb. rewrite N.eqb_eq. split.
      * intros [-> [post ->]]. now exists post.
      * intros [post H]. injection H as -> ->. split; eauto.
Qed.

Lemma contains_spec (p t : str) :
  contains p t = true <-> exists pre post, t = pre ++ p ++ post.
Proof.
  split.
  - induction t as [|c t IH]; cbn [contains]; rewrite orb_true_iff.
    + intros [H | H]; [|discriminate].
      apply startswith_spec in H as [post H]. now exists [], post.
    + intros [H | H].
      * apply startswith_spec in H as [post H]. now exists [], post.
      * destruct (IH H) as (pre & post & ->). now exists (c :: pre), post.
  - intros (pre & post & ->). induction pre as [|c pre IH].
    + cbn [app]. assert (H : startswith (p ++ post) p = true)
        by (apply startswith_spec; eauto).
      destruct (p ++ post); cbn [contains]; now rewrite H.
    + cbn [app contains]. rewrite IH. apply orb_true_r.
Qed.

Lemma contains_trans (a b c : str) :
  contains a b = true -> contains b c = true -> contains a c = true.
Proof.
  rewrite !contains_spec. intros (p1 & q1 & ->) (p2 & q2 & ->).
  exists (p2 ++ p1), (q1 ++ q2). now rewrite <- !app_assoc.
Qed.

Lemma contains_app_l (p s t : str) :
  contains p s = true -> contains p (s ++ t) = true.
Proof.
  rewrite !contains_spec. intros (pre & post & ->).
  exists pre, (post ++ t). now rewrite <- !app_assoc.
Qed.

Lemma contains_app_r (p s t : str) :
  contains p t = true -> contains p (s ++ t) = true.
Proof.
  rewrite !contains_spec. intros (pre & post & ->).
  exists (s ++ pre), post. now rewrite <- !app_assoc.
Qed.

(** ** The monad *)

Section Steps.
Context {P : Platform}.

Lemma bind_ret {A B} (a : A) (k : A -> M B) (st : State) :
  bind (ret a) k st = k a st.
Proof. reflexivity. Qed.

Lemma bind_print {B} (l : str) (k : unit -> M B) (st : State) :
  bind (print l) k st = k tt (mkState (world st) (trace st ++ [Stdout l])).
Proof. reflexivity. Qed.

Lemma bind_now {B} (k : Z -> M B) (st : State) :
  bind now k st =
  k (fst (datetime_now (world st)))
    (mkState (snd (datetime_now (world st))) (trace st)).
Proof.
  unfold bind, now. destruct (datetime_now (world st)); reflexivity.
Qed.

Lemma bind_exists {B} (p : Path) (k : bool -> M B) (st : State) :
  bind (exists_ p) k st = k (path_exists p (world st)) st.
Proof. reflexivity. Qed.

Lemma bind_assoc {A B C} (m : M A) (k : A -> M B) (h : B -> M C) (st : State) :
  bind (bind m k) h st = bind m (fun a => bind (k a) h) st.
Proof.
  unfold bind. destruct (m st) as [[a|e|c] st']; reflexivity.
Qed.

Lemma for_each_print {A} (f : A -> str) (xs : list A) (st : State) :
  for_each_ xs (fun x => print (f x)) st =
  (Return tt, mkState (world st) (trace st ++ map (fun x => Stdout (f x)) xs)).
Proof.
  revert st; induction xs as [|x xs IH]; intros st.
  - cbn [for_each_ map]. rewrite app_nil_r. now destruct st.
  - cbn [for_each_ map]. rewrite bind_print, IH. cbn [world trace].
    now rewrite <- app_assoc.
Qed.

Lemma bind_for_each_print {A B} (f : A -> str) (xs : list A)
    (k : unit -> M B) (st : State) :
  bind (for_each_ xs (fun x => print (f x))) k st =
  k tt (mkState (world st) (trace st ++ map (fun x => Stdout (f x)) xs)).
Proof. unfold bind at 1. now rewrite for_each_print. Qed.

End Steps.

Ltac step :=
  repeat (rewrite bind_print || rewrite bind_now || rewrite bind_for_each_print
          || rewrite bind_ret || rewrite bind_exists);
  cbn [world trace].

Ltac flatten_trace := rewrite <- ?app_assoc; cbn [app map].

(** ** The summaries *)

Section Summaries.
Context {P : Platform}.
Variables (nbs : list str) (start : Z) (results : dict str) (st : State).

Lemma run_all_summary :
  RunAllNotebooks.summary nbs start results st =
  (Exit (if (0 <? count_status FAILED results)%nat then 1 else 0)%Z,
   mkState (snd (datetime_now (world st)))
     (trace st
      ++ [Stdout (nl ++ banner); Stdout (lit "📊 EXECUTION SUMMARY"); Stdout banner]
      ++ map (fun item => Stdout (RunAllNotebooks.item_line item)) results
      ++ [Stdout (nl ++ banner);
          Stdout (lit "✅ Successful: " ++ str_of_nat (count_status SUCCESS results) ++ lit "/" ++ str_of_nat (List.length nbs));
          Stdout (lit "❌ Failed: " ++ str_of_nat (count_status FAILED results) ++ lit "/" ++ str_of_nat (List.length nbs));
          Stdout (lit "⚠️  Skipped: " ++ str_of_nat (count_status SKIPPED results) ++ lit "/" ++ str_of_nat (List.length nbs));
          Stdout (lit "⏱️  Total time: " ++ str_timedelta (fst (datetime_now (world st)) - start));
          Stdout banner]
      ++ (if (0 <? count_status FAILED results)%nat
          then [Stdout (nl ++ lit "⚠️  Some notebooks failed. Check the output above for details.")]
          else [Stdout (nl ++ lit "🎉 All notebooks executed successfully!");
                Stdout (nl ++ lit "Next steps:");
                Stdout (lit "1. Review notebooks to see all outputs");
                Stdout (lit "2. Check outputs/ directory for saved models");
                Stdout (lit "3. Record your video tutorials")]))).
Proof.
  unfold RunAllNotebooks.summary, items. step.
  fold (count_status SUCCESS results) (count_status FAILED results)
       (count_status SKIPPED results).
  destruct (0 <? count_status FAILED results)%nat; step;
    unfold sys_exit; flatten_trace; reflexivity.
Qed.

Lemma papermill_summary :
  RunNotebooksPapermill.summary nbs start results st =
  (Exit (if (0 <? count_status FAILED results)%nat then 1 else 0)%Z,
   mkState (snd (datetime_now (world st)))
     (trace st
      ++ [Stdout (nl ++ banner); Stdout (lit "📊 EXECUTION SUMMARY"); Stdout banner]
      ++ map (fun item => Stdout (RunNotebooksPapermill.item_line item)) results
      ++ [Stdout (nl ++ banner);
          Stdout (lit "✅ Successful: " ++ str_of_nat (count_status SUCCESS results) ++ lit "/" ++ str_of_nat (List.length nbs));
          Stdout (lit "❌ Failed: " ++ str_of_nat (count_status FAILED results) ++ lit "/" ++ str_of_nat (List.length nbs));
          Stdout (lit "⚠️  Skipped: " ++ str_of_nat (count_status SKIPPED results) ++ lit "/" ++ str_of_nat (List.length nbs));
          Stdout (lit "⏱️  Total time: " ++ str_timedelta (fst (datetime_now (world st)) - start));
          Stdout banner]
      ++ (if (0 <? count_status FAILED results)%nat
          then [Stdout (nl ++ lit "⚠️  Some notebooks failed. Check the output above for details.")]
          else [Stdout (nl ++ lit "🎉 All notebooks executed successfully!");
                Stdout (nl ++ lit "Next steps:");
                Stdout (lit "1. Review notebooks to see all outputs");
                Stdout (lit "2. Check outputs/ directory for saved models");
                Stdout (lit "3. Record your video tutorials")]))).
Proof.
  unfold RunNotebooksPapermill.summary, items. step.
  fold (count_status SUCCESS results) (count_status FAILED results)
       (count_status SKIPPED results).
  destruct (0 <? count_status FAILED results)%nat; step;
    unfold sys_exit; flatten_trace; reflexivity.
Qed.

Lemma quick_test_summary :
  QuickTest.summary nbs start results st =
  (Exit (if (0 <? count_status FAILED results)%nat then 1 else 0)%Z,
   mkState (snd (datetime_now (world st)))
     (trace st
      ++ [Stdout (nl ++ banner); Stdout (lit "📊 QUICK TEST SUMMARY"); Stdout banner]
      ++ map (fun item => Stdout (QuickTest.item_line item)) results
      ++ [Stdout (nl ++ banner);
          Stdout (lit "✅ Passed: " ++ str_of_nat (count_status SUCCESS results) ++ lit "/" ++ str_of_nat (List.length nbs));
          Stdout (lit "❌ Failed: " ++ str_of_nat (count_status FAILED results) ++ lit "/" ++ str_of_nat (List.length nbs));
          Stdout (lit "⏱️  Total time: " ++ str_timedelta (fst (datetime_now (world st)) - start));
          Stdout banner]
      ++ (if (0 <? count_status FAILED results)%nat
          then [Stdout (nl ++ lit "⚠️  Some tests failed.");
                Stdout (lit "💡 These failures may be due to timeout (10 min limit).");
                Stdout (lit "   Run 'uv run scripts/run_all_notebooks.py' for full validation (30 min timeout).")]
          else [Stdout (nl ++ lit "🎉 All quick tests passed!")]))).
Proof.
  unfold QuickTest.summary, items. step.
  fold (count_status SUCCESS results) (count_status FAILED results).
  destruct (0 <? count_status FAILED results)%nat; step;
    unfold sys_exit; flatten_trace; reflexivity.
Qed.

End Summaries.

(** ** The runner invocations *)

Section Runners.
Context {P : Platform}.

Lemma try_call_raises {B} (ev : event) (op : World -> option error * World)
    (k : unit -> M B) (h : error -> M B) (st : State) (w : World) (e : error) :
  op (world st) = (Some e, w) ->
  try_except (bind (call ev op) k) h st = h e (mkState w (trace st ++ [ev])).
Proof. intros H. unfold try_except, bind, call. now rewrite H. Qed.

Lemma try_call_ok {B} (ev : event) (op : World -> option error * World)
    (k : unit -> M B) (h : error -> M B) (st : State) (w : World) :
  op (world st) = (None, w) ->
  try_except (bind (call ev op) k) h st =
  try_except (k tt) h (mkState w (trace st ++ [ev])).
Proof. intros H. unfold try_except, bind, call. now rewrite H. Qed.

Lemma try_print {B} (l : str) (k : unit -> M B) (h : error -> M B) (st : State) :
  try_except (bind (print l) k) h st =
  try_except (k tt) h (mkState (world st) (trace st ++ [Stdout l])).
Proof. reflexivity. Qed.

Lemma try_now {B} (k : Z -> M B) (h : error -> M B) (st : State) :
  try_except (bind now k) h st =
  try_except (k (fst (datetime_now (world st)))) h
    (mkState (snd (datetime_now (world st))) (trace st)).
Proof.
  unfold try_except, bind, now. destruct (datetime_now (world st)); reflexivity.
Qed.

Lemma try_ret {B} (b : B) (h : error -> M B) (st : State) :
  try_except (ret b) h st = (Return b, st).
Proof. reflexivity. Qed.

(** [run_notebook] of run_all_notebooks.py, by the answer of the
    launched process. *)
Lemma run_all_run_notebook (p : Path) (timeout : Z) (allow : bool) (st : State) :
  let w1 := snd (datetime_now (world st)) in
  let t1 := fst (datetime_now (world st)) in
  let cmd := RunAllNotebooks.command p timeout allow in
  let opening :=
    [Stdout (nl ++ banner); Stdout (lit "📓 Executing: " ++ name p);
     Stdout banner; Stdout (lit "Started at: " ++ strftime t1 strftime_fmt);
     SubprocessRun cmd true] in
  let w2 := snd (subprocess_run cmd true w1) in
  RunAllNotebooks.run_notebook p timeout allow st =
  match fst (subprocess_run cmd true w1) with
  | None =>
      (Return true,
       mkState (snd (datetime_now w2))
         (trace st ++ opening
          ++ [Stdout (lit "✅ SUCCESS: " ++ name p);
              Stdout (lit "Completed at: "
                      ++ strftime (fst (datetime_now w2)) strftime_fmt)]))
  | Some e =>
      (Return false, mkState w2 (trace st ++ opening ++ run_all_failure p e))
  end.
Proof.
  intros w1 t1 cmd opening w2. unfold RunAllNotebooks.run_notebook. step.
  fold w1 t1 cmd. unfold run_checked.
  destruct (subprocess_run cmd true w1) as [[e|] w2'] eqn:E; subst w2; cbn [fst snd].
  - erewrite try_call_raises by (cbn [world]; exact E).
    destruct e; step; unfold ret; subst opening; flatten_trace; reflexivity.
  - erewrite try_call_ok by (cbn [world]; exact E).
    rewrite try_print, try_now, try_print, try_ret. cbn [world trace].
    subst opening; flatten_trace; reflexivity.
Qed.

(** [run_notebook] of quick_test.py. *)
Lemma quick_test_run_notebook (p : Path) (timeout : Z) (allow : bool) (st : State) :
  let w1 := snd (datetime_now (world st)) in
  let t1 := fst (datetime_now (world st)) in
  let cmd := QuickTest.command p timeout allow in
  let opening :=
    [Stdout (nl ++ banner); Stdout (lit "🚀 Testing: " ++ name p);
     Stdout banner; Stdout (lit "Started at: " ++ strftime t1 strftime_fmt);
     SubprocessRun cmd true] in
  let w2 := snd (subprocess_run cmd true w1) in
  QuickTest.run_notebook p timeout allow st =
  match fst (subprocess_run cmd true w1) with
  | None =>
      (Return true,
       mkState (snd (datetime_now w2))
         (trace st ++ opening
          ++ [Stdout (lit "✅ SUCCESS");
              Stdout (lit "Completed at: "
                      ++ strftime (fst (datetime_now w2)) strftime_fmt)]))
  | Some e =>
      (Return false, mkState w2 (trace st ++ opening ++ quick_test_failure e))
  end.
Proof.
  intros w1 t1 cmd opening w2. unfold QuickTest.run_notebook. step.
  fold w1 t1 cmd. unfold run_checked.
  destruct (subprocess_run cmd true w1) as [[e|] w2'] eqn:E; subst w2; cbn [fst snd].
  - erewrite try_call_raises by (cbn [world]; exact E).
    destruct e; step; unfold ret; subst opening; flatten_trace; reflexivity.
  - erewrite try_call_ok by (cbn [world]; exact E).
    rewrite try_print, try_now, try_print, try_ret. cbn [world trace].
    subst opening; flatten_trace; reflexivity.
Qed.

(** [run_notebook_papermill], by the answers of the import and of
    [pm.execute_notebook]. *)
Lemma papermill_run_notebook (p : Path) (out : option Path) (st : State) :
  let w1 := snd (datetime_now (world st)) in
  let t1 := fst (datetime_now (world st)) in
  let c := mkPmCall (str_of_path p)
             (str_of_path match out with None => p | Some q => q end)
             (lit "python3") true true in
  let opening :=
    [Stdout (nl ++ banner); Stdout (lit "📓 Executing: " ++ name p);
     Stdout banner; Stdout (lit "Started at: " ++ strftime t1 strftime_fmt);
     ImportPapermill] in
  let w2 := snd (import_papermill w1) in
  let w3 := snd (pm_execute_notebook c w2) in
  RunNotebooksPapermill.run_notebook_papermill p out st =
  match fst (import_papermill w1) with
  | Some e =>
      (Return false, mkState w2 (trace st ++ opening ++ papermill_failure p e))
  | None =>
      match fst (pm_execute_notebook c w2) with
      | Some e =>
          (Return false,
           mkState w3 (trace st ++ opening ++ PmExecuteNotebook c :: papermill_failure p e))
      | None =>
          (Return true,
           mkState (snd (datetime_now w3))
             (trace st ++ opening
              ++ [PmExecuteNotebook c;
                  Stdout (lit "✅ SUCCESS: " ++ name p);
                  Stdout (lit "Completed at: "
                          ++ strftime (fst (datetime_now w3)) strftime_fmt)]))
      end
  end.
Proof.
  intros w1 t1 c opening w2 w3.
  unfold RunNotebooksPapermill.run_notebook_papermill. step.
  fold w1 t1 c. unfold do_import_papermill, do_pm_execute_notebook.
  destruct (import_papermill w1) as [[e|] w2'] eqn:E; subst w2; cbn [fst snd] in *.
  - erewrite try_call_raises by (cbn [world]; exact E).
    step; unfold ret, papermill_failure; subst opening; flatten_trace; reflexivity.
  - erewrite try_call_ok by (cbn [world]; exact E).
    destruct (pm_execute_notebook c w2') as [[e|] w3'] eqn:E3; subst w3; cbn [fst snd].
    + erewrite try_call_raises by (cbn [world]; exact E3).
      step; unfold ret, papermill_failure; subst opening; flatten_trace; reflexivity.
    + erewrite try_call_ok by (cbn [world]; exact E3).
      rewrite try_print, try_now, try_print, try_ret. cbn [world trace].
      subst opening; flatten_trace; reflexivity.
Qed.

End Runners.

(** ** The dictionary of results *)

Lemma dict_set_fresh {V} (d : dict V) (k : str) (v : V) :
  ~ In k (keys d) -> dict_set d k v = d ++ [(k, v)].
Proof.
  induction d as [|[k' v'] d IH]; intros H; [reflexivity|].
  cbn [dict_set app]. cbn [keys map fst In] in H.
  destruct (str_eqb k' k) eqn:E.
  - apply str_eqb_eq in E. tauto.
  - f_equal. apply IH. intros Hin. apply H. now right.
Qed.

Lemma record_all_fresh (runs : list item_run) (d : dict str) :
  NoDup (map item_name runs) ->
  (forall r, In r runs -> ~ In (item_name r) (keys d)) ->
  record_all d runs = d ++ map item_entry runs.
Proof.
  revert d; induction runs as [|r runs IH]; intros d Hnd Hd.
  - cbn. now rewrite app_nil_r.
  - cbn [record_all fold_left map]. inversion Hnd as [|? ? Hr Hnd']; subst.
    rewrite dict_set_fresh by (apply Hd; now left).
    fold (record_all (d ++ [(item_name r, item_status r)]) runs).
    rewrite IH; [now rewrite <- app_assoc | assumption |].
    intros r' Hin. unfold keys. rewrite map_app, in_app_iff. cbn [map fst In].
    intros [H | [H | []]].
    + apply (Hd r'); [now right | exact H].
    + apply Hr. rewrite H. now apply in_map.
  Qed.

Lemma record_all_nodup (runs : list item_run) :
  NoDup (map item_name runs) -> record_all [] runs = map item_entry runs.
Proof.
  intros H. rewrite record_all_fresh; auto.
Qed.

Lemma sum_ones_length {A} (p : A -> bool) (xs : list A) :
  sum_ones p xs = List.length (filter p xs).
Proof.
  unfold sum_ones. induction (filter p xs) as [|x l IH]; cbn; auto.
Qed.

Lemma success_not_failed : str_eqb SUCCESS FAILED = false.
Proof. reflexivity. Qed.
Lemma success_not_skipped : str_eqb SUCCESS SKIPPED = false.
Proof. reflexivity. Qed.
Lemma failed_not_success : str_eqb FAILED SUCCESS = false.
Proof. reflexivity. Qed.
Lemma failed_not_skipped : str_eqb FAILED SKIPPED = false.
Proof. reflexivity. Qed.
Lemma skipped_not_success : str_eqb SKIPPED SUCCESS = false.
Proof. reflexivity. Qed.
Lemma skipped_not_failed : str_eqb SKIPPED FAILED = false.
Proof. reflexivity. Qed.

(** The three labels are different strings, so the three counts partition
    a dictionary that holds nothing else. *)
Lemma counts_partition (results : dict str) :
  Forall (fun s => s = SUCCESS \/ s = FAILED \/ s = SKIPPED) (values results) ->
  count_status SUCCESS results + count_status FAILED results
  + count_status SKIPPED results = List.length results.
Proof.
  unfold count_status. rewrite !sum_ones_length. unfold values.
  induction results as [|[k v] d IH]; intros H; [reflexivity|].
  cbn [map snd] in *. inversion H as [|? ? Hv Hd]; subst.
  specialize (IH Hd). cbn [filter List.length].
  destruct Hv as [-> | [-> | ->]];
    rewrite ?str_eqb_refl, ?success_not_failed, ?success_not_skipped,
      ?failed_not_success, ?failed_not_skipped, ?skipped_not_success,
      ?skipped_not_failed; cbn [List.length]; lia.
Qed.

(** ** The loop *)

Section Loop.
Context {P : Platform}.
Variable body : str -> dict str -> M (dict str).
Variable ok : item_run -> Prop.

Hypothesis body_ok : forall notebook_name d st,
  exists r w,
    item_name r = notebook_name /\ ok r /\
    body notebook_name d st =
    (Return (dict_set d notebook_name (item_status r)),
     mkState w (trace st ++ item_events r)).

(** The loop never raises and never exits; it records one outcome per
    item, in order, and its trace is the iterations' events in order. *)
Lemma for_each_runs (names : list str) (d : dict str) (st : State) :
  exists runs w,
    map item_name runs = names /\ Forall ok runs /\
    for_each names body d st =
    (Return (record_all d runs),
     mkState w (trace st ++ List.concat (map item_events runs))).
Proof.
  revert d st; induction names as [|n names IH]; intros d st.
  - exists [], (world st). repeat split; [constructor|].
    cbn. rewrite app_nil_r. now destruct st.
  - destruct (body_ok n d st) as (r & w & Hn & Hr & Hb).
    destruct (IH (dict_set d n (item_status r)) (mkState w (trace st ++ item_events r)))
      as (runs & w' & Hnames & Hok & Hloop).
    exists (r :: runs), w'. repeat split.
    + cbn [map]. congruence.
    + now constructor.
    + cbn [for_each]. unfold bind at 1. rewrite Hb, Hloop.
      cbn [trace map List.concat record_all fold_left]. rewrite Hn, <- app_assoc.
      reflexivity.
Qed.

End Loop.

(** ** One iteration *)

Section Iterations.
Context {P : Platform}.
Variables (notebook_name : str) (d : dict str) (st : State).

Lemma run_all_missing :
  path_exists (truediv RunAllNotebooks.notebooks_dir notebook_name) (world st) = false ->
  RunAllNotebooks.execute_one notebook_name d st =
  (Return (dict_set d notebook_name SKIPPED),
   mkState (world st) (trace st ++ [Stdout (skip_line notebook_name)])).
Proof.
  intros H. unfold RunAllNotebooks.execute_one. step. rewrite H. cbn [negb].
  step. reflexivity.
Qed.

Lemma run_all_present :
  path_exists (truediv RunAllNotebooks.notebooks_dir notebook_name) (world st) = true ->
  RunAllNotebooks.execute_one notebook_name d st =
  (let r := RunAllNotebooks.run_notebook
              (truediv RunAllNotebooks.notebooks_dir notebook_name) 1800 false st in
   match fst r with
   | Return success =>
       (Return (dict_set d notebook_name (if success then SUCCESS else FAILED)), snd r)
   | Raise e => (Raise e, snd r)
   | Exit c => (Exit c, snd r)
   end).
Proof.
  intros H. unfold RunAllNotebooks.execute_one. step. rewrite H. cbn [negb].
  unfold bind, RunAllNotebooks.default_allow_errors.
  destruct (RunAllNotebooks.run_notebook _ _ _ st) as [[b|e|c] st']; reflexivity.
Qed.

Lemma run_all_iteration :
  exists r w,
    item_name r = notebook_name /\ item_ok run_all_calls r /\
    RunAllNotebooks.execute_one notebook_name d st =
    (Return (dict_set d notebook_name (item_status r)),
     mkState w (trace st ++ item_events r)).
Proof.
  destruct (path_exists (truediv RunAllNotebooks.notebooks_dir notebook_name) (world st)) eqn:E.
  - rewrite (run_all_present E), run_all_run_notebook. cbv zeta.
    match goal with
    | |- context [fst (subprocess_run ?c true ?w)] =>
        destruct (subprocess_run c true w) as [[e|] w2]
    end; cbn [fst snd].
    + eexists (mkItemRun notebook_name FAILED _), _. cbn [item_name item_status item_events].
      split; [reflexivity|]. split; [|reflexivity].
      right. split; [now right|]. cbn [item_name item_events].
      unfold run_all_calls, external. rewrite filter_app.
      destruct e; reflexivity.
    + eexists (mkItemRun notebook_name SUCCESS _), _. cbn [item_name item_status item_events].
      split; [reflexivity|]. split; [|reflexivity].
      right. split; [now left|]. reflexivity.
  - rewrite (run_all_missing E).
    exists (mkItemRun notebook_name SKIPPED [Stdout (skip_line notebook_name)]), (world st).
    split; [reflexivity|]. split; [|reflexivity]. left. now split.
Qed.

Lemma quick_test_missing :
  path_exists (truediv QuickTest.notebooks_dir notebook_name) (world st) = false ->
  QuickTest.execute_one notebook_name d st =
  (Return (dict_set d notebook_name SKIPPED),
   mkState (world st) (trace st ++ [Stdout (skip_line notebook_name)])).
Proof.
  intros H. unfold QuickTest.execute_one. step. rewrite H. cbn [negb].
  step. reflexivity.
Qed.

Lemma quick_test_present :
  path_exists (truediv QuickTest.notebooks_dir notebook_name) (world st) = true ->
  QuickTest.execute_one notebook_name d st =
  (let r := QuickTest.run_notebook
              (truediv QuickTest.notebooks_dir notebook_name) 600 false st in
   match fst r with
   | Return success =>
       (Return (dict_set d notebook_name (if success then SUCCESS else FAILED)), snd r)
   | Raise e => (Raise e, snd r)
   | Exit c => (Exit c, snd r)
   end).
Proof.
  intros H. unfold QuickTest.execute_one. step. rewrite H. cbn [negb].
  unfold bind.
  destruct (QuickTest.run_notebook _ _ _ st) as [[b|e|c] st']; reflexivity.
Qed.

Lemma quick_test_iteration :
  exists r w,
    item_name r = notebook_name /\ item_ok quick_test_calls r /\
    QuickTest.execute_one notebook_name d st =
    (Return (dict_set d notebook_name (item_status r)),
     mkState w (trace st ++ item_events r)).
Proof.
  destruct (path_exists (truediv QuickTest.notebooks_dir notebook_name) (world st)) eqn:E.
  - rewrite (quick_test_present E), quick_test_run_notebook. cbv zeta.
    match goal with
    | |- context [fst (subprocess_run ?c true ?w)] =>
        destruct (subprocess_run c true w) as [[e|] w2]
    end; cbn [fst snd].
    + eexists (mkItemRun notebook_name FAILED _), _. cbn [item_name item_status item_events].
      split; [reflexivity|]. split; [|reflexivity].
      right. split; [now right|]. cbn [item_name item_events].
      unfold quick_test_calls, external. rewrite filter_app.
      destruct e; reflexivity.
    + eexists (mkItemRun notebook_name SUCCESS _), _. cbn [item_name item_status item_events].
      split; [reflexivity|]. split; [|reflexivity].
      right. split; [now left|]. reflexivity.
  - rewrite (quick_test_missing E).
    exists (mkItemRun notebook_name SKIPPED [Stdout (skip_line notebook_name)]), (world st).
    split; [reflexivity|]. split; [|reflexivity]. left. now split.
Qed.

Lemma papermill_missing :
  path_exists (truediv RunNotebooksPapermill.notebooks_dir notebook_name) (world st) = false ->
  RunNotebooksPapermill.execute_one notebook_name d st =
  (Return (dict_set d notebook_name SKIPPED),
   mkState (world st) (trace st ++ [Stdout (skip_line notebook_name)])).
Proof.
  intros H. unfold RunNotebooksPapermill.execute_one. step. rewrite H. cbn [negb].
  step. reflexivity.
Qed.

Lemma papermill_present :
  path_exists (truediv RunNotebooksPapermill.notebooks_dir notebook_name) (world st) = true ->
  RunNotebooksPapermill.execute_one notebook_name d st =
  (let r := RunNotebooksPapermill.run_notebook_papermill
              (truediv RunNotebooksPapermill.notebooks_dir notebook_name) None st in
   match fst r with
   | Return success =>
       (Return (dict_set d notebook_name (if success then SUCCESS else FAILED)), snd r)
   | Raise e => (Raise e, snd r)
   | Exit c => (Exit c, snd r)
   end).
Proof.
  intros H. unfold RunNotebooksPapermill.execute_one. step. rewrite H. cbn [negb].
  unfold bind.
  destruct (RunNotebooksPapermill.run_notebook_papermill _ _ st) as [[b|e|c] st'];
    reflexivity.
Qed.

Lemma papermill_iteration :
  exists r w,
    item_name r = notebook_name /\ item_ok papermill_calls r /\
    RunNotebooksPapermill.execute_one notebook_name d st =
    (Return (dict_set d notebook_name (item_status r)),
     mkState w (trace st ++ item_events r)).
Proof.
  destruct (path_exists (truediv RunNotebooksPapermill.notebooks_dir notebook_name) (world st)) eqn:E.
  - rewrite (papermill_present E), papermill_run_notebook. cbv zeta.
    match goal with
    | |- context [fst (import_papermill ?w)] =>
        destruct (import_papermill w) as [[e|] w2]
    end; cbn [fst snd].
    + eexists (mkItemRun notebook_name FAILED _), _. cbn [item_name item_status item_events].
      split; [reflexivity|]. split; [|reflexivity].
      right. split; [now right|]. now left.
    + match goal with
      | |- context [fst (pm_execute_notebook ?c ?w)] =>
          destruct (pm_execute_notebook c w) as [[e|] w3]
      end; cbn [fst snd].
      * eexists (mkItemRun notebook_name FAILED _), _. cbn [item_name item_status item_events].
        split; [reflexivity|]. split; [|reflexivity].
        right. split; [now right|]. now right.
      * eexists (mkItemRun notebook_name SUCCESS _), _. cbn [item_name item_status item_events].
        split; [reflexivity|]. split; [|reflexivity].
        right. split; [now left|]. now right.
  - rewrite (papermill_missing E).
    exists (mkItemRun notebook_name SKIPPED [Stdout (skip_line notebook_name)]), (world st).
    split; [reflexivity|]. split; [|reflexivity]. left. now split.
Qed.

End Iterations.

(** ** The whole loop *)

Lemma notebooks_nodup : NoDup RunAllNotebooks.notebooks.
Proof.
  unfold RunAllNotebooks.notebooks.
  repeat (constructor; [cbv; intuition discriminate|]). constructor.
Qed.

Section Batches.
Context {P : Platform}.
Variables (nbs : list str) (st : State).
Hypothesis distinct : NoDup nbs.

Lemma run_all_batch :
  exists runs w,
    map item_name runs = nbs /\ Forall (item_ok run_all_calls) runs /\
    RunAllNotebooks.execute_all nbs st =
    (Return (fst (datetime_now (world st)), map item_entry runs),
     mkState w
       (trace st
        ++ [Stdout (lit "🚀 PyCaret Notebooks Batch Executor"); Stdout banner]
        ++ List.concat (map item_events runs))).
Proof.
  unfold RunAllNotebooks.execute_all. step.
  match goal with
  | |- context [bind (for_each nbs ?b ?d) ?k ?s] =>
      destruct (for_each_runs b (item_ok run_all_calls) run_all_iteration nbs d s)
        as (runs & w & Hn & Hok & Hrun)
  end.
  exists runs, w. split; [exact Hn|]. split; [exact Hok|].
  unfold bind at 1. rewrite Hrun. cbn [trace]. unfold ret.
  rewrite record_all_nodup by (rewrite Hn; exact distinct).
  flatten_trace. reflexivity.
Qed.

Lemma quick_test_batch :
  exists runs w,
    map item_name runs = nbs /\ Forall (item_ok quick_test_calls) runs /\
    QuickTest.execute_all nbs st =
    (Return (fst (datetime_now (world st)), map item_entry runs),
     mkState w
       (trace st
        ++ [Stdout (lit "⚡ PyCaret Quick Test Runner");
            Stdout banner;
            Stdout (lit "Testing with:");
            Stdout (lit "  - 10 min timeout per notebook (vs 30 min in full suite)");
            Stdout (lit "  - Sequential execution");
            Stdout [];
            Stdout (lit "💡 TIP: To speed up notebooks further, manually edit them to:");
            Stdout (lit "   1. Add 'fold=3' parameter to setup() calls");
            Stdout (lit "   2. Use compare_models(n_select=1) to test fewer models");
            Stdout banner]
        ++ List.concat (map item_events runs))).
Proof.
  unfold QuickTest.execute_all. step.
  match goal with
  | |- context [bind (for_each nbs ?b ?d) ?k ?s] =>
      destruct (for_each_runs b (item_ok quick_test_calls) quick_test_iteration nbs d s)
        as (runs & w & Hn & Hok & Hrun)
  end.
  exists runs, w. split; [exact Hn|]. split; [exact Hok|].
  unfold bind at 1. rewrite Hrun. cbn [trace]. unfold ret.
  rewrite record_all_nodup by (rewrite Hn; exact distinct).
  flatten_trace. reflexivity.
Qed.

Lemma papermill_batch :
  exists runs w,
    map item_name runs = nbs /\ Forall (item_ok papermill_calls) runs /\
    RunNotebooksPapermill.execute_all nbs st =
    (Return (fst (datetime_now (world st)), map item_entry runs),
     mkState w (trace st ++ List.concat (map item_events runs))).
Proof.
  unfold RunNotebooksPapermill.execute_all. step.
  match goal with
  | |- context [bind (for_each nbs ?b ?d) ?k ?s] =>
      destruct (for_each_runs b (item_ok papermill_calls) papermill_iteration nbs d s)
        as (runs & w & Hn & Hok & Hrun)
  end.
  exists runs, w. split; [exact Hn|]. split; [exact Hok|].
  unfold bind at 1. rewrite Hrun. cbn [trace]. unfold ret.
  rewrite record_all_nodup by (rewrite Hn; exact distinct).
  reflexivity.
Qed.

End Batches.

(** ** Outcomes and external calls of the recorded iterations *)

Lemma item_ok_label (calls : str -> list event -> Prop) (runs : list item_run) :
  Forall (item_ok calls) runs ->
  Forall (fun s => s = SUCCESS \/ s = FAILED \/ s = SKIPPED)
    (values (map item_entry runs)).
Proof.
  induction 1 as [|r runs Hr _ IH]; [constructor|].
  cbn [values map item_entry snd]. constructor; [|exact IH].
  destruct Hr as [[Hs _] | [[Hs | Hs] _]]; auto.
Qed.

Lemma keys_entries (runs : list item_run) :
  keys (map item_entry runs) = map item_name runs.
Proof.
  unfold keys. rewrite map_map. reflexivity.
Qed.

Lemma external_stdout {A} (f : A -> str) (xs : list A) :
  external (map (fun x => Stdout (f x)) xs) = [].
Proof. induction xs; auto. Qed.

Lemma external_app (l l' : list event) :
  external (l ++ l') = external l ++ external l'.
Proof. apply filter_app. Qed.

(** When every attempted item makes exactly the call [f name], the
    external calls of the loop are these calls for the attempted items, in
    order. *)
Lemma external_of_runs (f : str -> event) (runs : list item_run) :
  Forall (item_ok (fun notebook_name evs => evs = [f notebook_name])) runs ->
  external (List.concat (map item_events runs)) =
  map f (map item_name (filter attempted runs)).
Proof.
  induction 1 as [|r runs Hr _ IH]; [reflexivity|].
  cbn [map List.concat filter]. rewrite external_app, IH.
  unfold attempted at 2.
  destruct Hr as [[Hs He] | [Hs He]].
  - rewrite Hs, str_eqb_refl, He. reflexivity.
  - rewrite He.
    destruct Hs as [-> | ->];
      rewrite ?success_not_skipped, ?failed_not_skipped; reflexivity.
Qed.

(** ** The whole of [main] *)

Section Mains.
Context {P : Platform}.
Variables (nbs : list str) (st : State).
Hypothesis distinct : NoDup nbs.

Lemma run_all_main :
  exists runs st1,
    map item_name runs = nbs /\ Forall (item_ok run_all_calls) runs /\
    RunAllNotebooks.execute_all nbs st =
      (Return (fst (datetime_now (world st)), map item_entry runs), st1) /\
    external (trace st1) =
      external (trace st) ++ external (List.concat (map item_events runs)) /\
    RunAllNotebooks.main_on nbs st =
      RunAllNotebooks.summary nbs (fst (datetime_now (world st)))
        (map item_entry runs) st1.
Proof.
  destruct (run_all_batch (nbs:=nbs) st distinct) as (runs & w & Hn & Hok & Hrun).
  eexists runs, _. repeat split; [exact Hn | exact Hok | exact Hrun | |].
  - cbn [trace]. now rewrite !external_app.
  - unfold RunAllNotebooks.main_on, bind. rewrite Hrun. reflexivity.
Qed.

Lemma quick_test_main :
  exists runs st1,
    map item_name runs = nbs /\ Forall (item_ok quick_test_calls) runs /\
    QuickTest.execute_all nbs st =
      (Return (fst (datetime_now (world st)), map item_entry runs), st1) /\
    external (trace st1) =
      external (trace st) ++ external (List.concat (map item_events runs)) /\
    QuickTest.main_on nbs st =
      QuickTest.summary nbs (fst (datetime_now (world st)))
        (map item_entry runs) st1.
Proof.
  destruct (quick_test_batch (nbs:=nbs) st distinct) as (runs & w & Hn & Hok & Hrun).
  eexists runs, _. repeat split; [exact Hn | exact Hok | exact Hrun | |].
  - cbn [trace]. now rewrite !external_app.
  - unfold QuickTest.main_on, bind. rewrite Hrun. reflexivity.
Qed.

End Mains.

Section SummaryCalls.
Context {P : Platform}.
Variables (nbs : list str) (start : Z) (results : dict str) (st : State).

(** The summaries only print. *)
Lemma run_all_summary_external :
  external (trace (snd (RunAllNotebooks.summary nbs start results st))) =
  external (trace st).
Proof.
  rewrite run_all_summary. cbn [snd trace].
  rewrite !external_app, external_stdout.
  destruct (0 <? count_status FAILED results)%nat; cbn; now rewrite app_nil_r.
Qed.

Lemma quick_test_summary_external :
  external (trace (snd (QuickTest.summary nbs start results st))) =
  external (trace st).
Proof.
  rewrite quick_test_summary. cbn [snd trace].
  rewrite !external_app, external_stdout.
  destruct (0 <? count_status FAILED results)%nat; cbn; now rewrite app_nil_r.
Qed.

Lemma papermill_summary_external :
  external (trace (snd (RunNotebooksPapermill.summary nbs start results st))) =
  external (trace st).
Proof.
  rewrite papermill_summary. cbn [snd trace].
  rewrite !external_app, external_stdout.
  destruct (0 <? count_status FAILED results)%nat; cbn; now rewrite app_nil_r.
Qed.

End SummaryCalls.

(** ** The check for papermill *)

Section Prerequisites.
Context {P : Platform}.
Variable st : State.

Lemma papermill_prerequisites :
  RunNotebooksPapermill.prerequisites st =
  match fst (import_papermill (world st)) with
  | None => (Return tt, mkState (snd (import_papermill (world st))) (trace st ++ papermill_opening))
  | Some (ImportError _) =>
      match fst (subprocess_run uv_add_papermill false
                 (snd (import_papermill (world st)))) with
      | None =>
          (Return tt,
           mkState (snd (subprocess_run uv_add_papermill false (snd (import_papermill (world st))))) (trace st ++ papermill_opening ++ papermill_installing
                       ++ [Stdout (lit "✅ Papermill installed successfully")]))
      | Some (CalledProcessError _ _ _) =>
          (Exit 1%Z,
           mkState (snd (subprocess_run uv_add_papermill false (snd (import_papermill (world st))))) (trace st ++ papermill_opening ++ papermill_installing
                       ++ [Stdout (lit "❌ Failed to install papermill");
                           Stdout (nl ++ lit "❌ Cannot proceed without papermill");
                           Stdout (lit "Please install manually: uv add papermill")]))
      | Some e => (Raise e, mkState (snd (subprocess_run uv_add_papermill false (snd (import_papermill (world st))))) (trace st ++ papermill_opening ++ papermill_installing))
      end
  | Some e => (Raise e, mkState (snd (import_papermill (world st))) (trace st ++ papermill_opening))
  end.
Proof.
  unfold RunNotebooksPapermill.prerequisites. step.
  unfold RunNotebooksPapermill.check_papermill_installed, do_import_papermill.
  unfold bind at 1, try_except, bind at 1, call. cbn [world trace].
  destruct (import_papermill (world st)) as [[e|] w] eqn:E; cbn [fst snd].
  - destruct e; try (unfold raise; unfold papermill_opening; flatten_trace; reflexivity).
    unfold ret at 1. cbn [negb]. step.
    unfold RunNotebooksPapermill.install_papermill. rewrite bind_assoc. step.
    unfold run_checked. fold uv_add_papermill.
    unfold bind at 1, try_except, bind at 1, call. cbn [world trace].
    destruct (subprocess_run uv_add_papermill false w) as [[e|] w'] eqn:E2; cbn [fst snd].
    + destruct e; try (unfold raise; unfold papermill_opening, papermill_installing; flatten_trace; reflexivity).
      step. unfold ret at 1. cbn [negb]. step. unfold sys_exit.
      unfold papermill_opening, papermill_installing; flatten_trace; reflexivity.
    + step. unfold ret at 1. cbn [negb]. unfold ret.
      unfold papermill_opening, papermill_installing; flatten_trace; reflexivity.
  - unfold ret at 1. cbn [negb]. unfold ret.
    unfold papermill_opening; flatten_trace; reflexivity.
Qed.

End Prerequisites.

(** ** The scripts on test doubles *)

Example all_succeed :
  fst (RunAllNotebooks.main (stub_start healthy 0%Z)) = Exit 0%Z
  /\ snd <$> fst (RunAllNotebooks.execute_all RunAllNotebooks.notebooks
                    (stub_start healthy 0%Z))
     = Return [ (lit "regression.ipynb", SUCCESS);
                (lit "clustering.ipynb", SUCCESS);
                (lit "anomaly-detection.ipynb", SUCCESS);
                (lit "association.ipynb", SUCCESS);
                (lit "time-series-forecasting.ipynb", SUCCESS) ].
Proof. split; reflexivity. Qed.

Example one_missing :
  let P := without [lit "anomaly-detection.ipynb"] in
  fst (RunNotebooksPapermill.main (stub_start P 0%Z)) = Exit 0%Z
  /\ snd <$> fst (RunNotebooksPapermill.execute_all RunNotebooksPapermill.notebooks
                    (stub_start P 0%Z))
     = Return [ (lit "regression.ipynb", SUCCESS);
                (lit "clustering.ipynb", SUCCESS);
                (lit "anomaly-detection.ipynb", SKIPPED);
                (lit "association.ipynb", SUCCESS);
                (lit "time-series-forecasting.ipynb", SUCCESS) ].
Proof. split; reflexivity. Qed.

Example all_fail :
  let P := failing (lit "CellExecutionError") in
  fst (QuickTest.main (stub_start P 0%Z)) = Exit 1%Z
  /\ List.length (external (trace (snd (QuickTest.main (stub_start P 0%Z))))) = 5.
Proof. split; reflexivity. Qed.

Example empty_work_list :
  fst (RunAllNotebooks.main_on [] (stub_start healthy 0%Z)) = Exit 0%Z
  /\ external (trace (snd (RunAllNotebooks.main_on [] (stub_start healthy 0%Z)))) = [].
Proof. split; reflexivity. Qed.

(** * The claims *)

(** C1.  Exit-code law.  For every finalized batch (any dictionary of
    results handed to the summary of any of the three scripts, in any
    world), the exit status of the process is 0 exactly when the failure
    count is 0, and it is 1 exactly when the failure count is at least 1.
    The status is a function of the failure count alone, so skipped items
    never change it. *)
Theorem exit_code_law `{P : Platform} (nbs : list str) (start : Z)
    (results : dict str) (st : State) :
  let failure_count := count_status FAILED results in
  Forall (fun code : Z =>
            (code = 0%Z <-> failure_count = 0) /\ (code = 1%Z <-> 1 <= failure_count))
    [ exit_status (fst (RunAllNotebooks.summary nbs start results st));
      exit_status (fst (QuickTest.summary nbs start results st));
      exit_status (fst (RunNotebooksPapermill.summary nbs start results st)) ].
Proof.
  intros failure_count.
  rewrite run_all_summary, quick_test_summary, papermill_summary. cbn [fst exit_status].
  fold failure_count.
  assert (H : ((if (0 <? failure_count)%nat then 1 else 0)%Z = 0%Z <-> failure_count = 0)
              /\ ((if (0 <? failure_count)%nat then 1 else 0)%Z = 1%Z <-> 1 <= failure_count)).
  { destruct (Nat.ltb_spec 0 failure_count); split; split; intros; try lia. }
  repeat constructor; apply H.
Qed.

(** C3.  Missing work items.  In each script, when the existence check of
    the item at the head of the work list fails, the loop records SKIPPED
    for it, prints the skip line and nothing else (no process is launched,
    no library is called, the world is untouched), and goes on with the
    rest of the list. *)
Theorem missing_item_is_skipped `{P : Platform} (notebook_name : str)
    (rest : list str) (results : dict str) (st : State) :
  let skipped :=
    mkState (world st) (trace st ++ [Stdout (skip_line notebook_name)]) in
  (path_exists (truediv RunAllNotebooks.notebooks_dir notebook_name) (world st) = false ->
   for_each (notebook_name :: rest) RunAllNotebooks.execute_one results st =
   for_each rest RunAllNotebooks.execute_one
     (dict_set results notebook_name SKIPPED) skipped)
  /\ (path_exists (truediv QuickTest.notebooks_dir notebook_name) (world st) = false ->
      for_each (notebook_name :: rest) QuickTest.execute_one results st =
      for_each rest QuickTest.execute_one
        (dict_set results notebook_name SKIPPED) skipped)
  /\ (path_exists (truediv RunNotebooksPapermill.notebooks_dir notebook_name) (world st) = false ->
      for_each (notebook_name :: rest) RunNotebooksPapermill.execute_one results st =
      for_each rest RunNotebooksPapermill.execute_one
        (dict_set results notebook_name SKIPPED) skipped).
Proof.
  intros skipped. repeat split; intros H; cbn [for_each]; unfold bind at 1.
  - now rewrite (run_all_missing _ _ _ H).
  - now rewrite (quick_test_missing _ _ _ H).
  - now rewrite (papermill_missing _ _ _ H).
Qed.

(** C4.  In every world, the loop of each script returns a dictionary in
    which the numbers of SUCCESS, FAILED and SKIPPED outcomes add up to the
    number of notebooks of the work list. *)
Theorem counts_add_up `{P : Platform} (st : State) :
  (exists start results st1,
     RunAllNotebooks.execute_all RunAllNotebooks.notebooks st
       = (Return (start, results), st1) /\
     count_status SUCCESS results + count_status FAILED results
       + count_status SKIPPED results = List.length RunAllNotebooks.notebooks)
  /\ (exists start results st1,
       QuickTest.execute_all QuickTest.notebooks st
         = (Return (start, results), st1) /\
       count_status SUCCESS results + count_status FAILED results
         + count_status SKIPPED results = List.length QuickTest.notebooks)
  /\ (exists start results st1,
       RunNotebooksPapermill.execute_all RunNotebooksPapermill.notebooks st
         = (Return (start, results), st1) /\
       count_status SUCCESS results + count_status FAILED results
         + count_status SKIPPED results = List.length RunNotebooksPapermill.notebooks).
Proof.
  repeat split.
  - destruct (run_all_batch st notebooks_nodup) as (runs & w & Hn & Hok & Hrun).
    do 3 eexists. split; [exact Hrun|].
    rewrite (counts_partition _ (item_ok_label Hok)).
    now rewrite <- Hn, !length_map.
  - destruct (quick_test_batch st notebooks_nodup) as (runs & w & Hn & Hok & Hrun).
    do 3 eexists. split; [exact Hrun|].
    rewrite (counts_partition _ (item_ok_label Hok)).
    now rewrite length_map, <- (length_map item_name), Hn.
  - destruct (papermill_batch st notebooks_nodup) as (runs & w & Hn & Hok & Hrun).
    do 3 eexists. split; [exact Hrun|].
    rewrite (counts_partition _ (item_ok_label Hok)).
    now rewrite length_map, <- (length_map item_name), Hn.
Qed.

(** C5.  Report order.  In every world, the loop of each script returns a
    dictionary whose keys are the notebooks of the work list in the order
    in which the list declares them, and the summary prints, right after
    its three heading lines, one line per entry of that dictionary in that
    order.  For run_all_notebooks.py and quick_test.py this summary is the
    rest of [main]. *)
Theorem report_follows_declaration_order `{P : Platform} (st : State) :
  (exists start results st1 closing,
     RunAllNotebooks.execute_all RunAllNotebooks.notebooks st
       = (Return (start, results), st1) /\
     keys results = RunAllNotebooks.notebooks /\
     RunAllNotebooks.main st
       = RunAllNotebooks.summary RunAllNotebooks.notebooks start results st1 /\
     trace (snd (RunAllNotebooks.main st)) =
       trace st1
       ++ [Stdout (nl ++ banner); Stdout (lit "📊 EXECUTION SUMMARY"); Stdout banner]
       ++ map (fun item => Stdout (RunAllNotebooks.item_line item)) results
       ++ Stdout (nl ++ banner) :: closing)
  /\ (exists start results st1 closing,
       QuickTest.execute_all QuickTest.notebooks st
         = (Return (start, results), st1) /\
       keys results = QuickTest.notebooks /\
       QuickTest.main st
         = QuickTest.summary QuickTest.notebooks start results st1 /\
       trace (snd (QuickTest.main st)) =
         trace st1
         ++ [Stdout (nl ++ banner); Stdout (lit "📊 QUICK TEST SUMMARY"); Stdout banner]
         ++ map (fun item => Stdout (QuickTest.item_line item)) results
         ++ Stdout (nl ++ banner) :: closing)
  /\ (exists start results st1 closing,
       RunNotebooksPapermill.execute_all RunNotebooksPapermill.notebooks st
         = (Return (start, results), st1) /\
       keys results = RunNotebooksPapermill.notebooks /\
       trace (snd (RunNotebooksPapermill.summary RunNotebooksPapermill.notebooks
                     start results st1)) =
         trace st1
         ++ [Stdout (nl ++ banner); Stdout (lit "📊 EXECUTION SUMMARY"); Stdout banner]
         ++ map (fun item => Stdout (RunNotebooksPapermill.item_line item)) results
         ++ Stdout (nl ++ banner) :: closing).
Proof.
  repeat split.
  - destruct (run_all_main st notebooks_nodup) as (runs & st1 & Hn & _ & Hrun & _ & Hmain).
    do 3 eexists. eexists. split; [exact Hrun|].
    split; [now rewrite keys_entries|]. split; [exact Hmain|].
    unfold RunAllNotebooks.main. rewrite Hmain, run_all_summary. cbn [snd trace app].
    reflexivity.
  - destruct (quick_test_main (nbs:=QuickTest.notebooks) st notebooks_nodup)
      as (runs & st1 & Hn & _ & Hrun & _ & Hmain).
    do 3 eexists. eexists. split; [exact Hrun|].
    split; [now rewrite keys_entries|]. split; [exact Hmain|].
    unfold QuickTest.main. rewrite Hmain, quick_test_summary. cbn [snd trace app].
    reflexivity.
  - destruct (papermill_batch st notebooks_nodup) as (runs & w & Hn & _ & Hrun).
    do 3 eexists. eexists. split; [exact Hrun|].
    split; [now rewrite keys_entries|].
    rewrite papermill_summary. cbn [snd trace app]. reflexivity.
Qed.

(** C8, as amended.  For every dictionary of results handed to it, each
    summary prints three heading lines, then one line per entry of the
    dictionary in the dictionary's order (emoji, name, outcome label).
    After them run_all_notebooks.py and run_notebooks_papermill.py print
    the success, failure and skipped counts and the total time, the
    difference between the clock read at the start of the summary and the
    start time; quick_test.py prints the success and failure counts and the
    total time, and no skipped count. *)
Theorem summary_report `{P : Platform} (nbs : list str) (start : Z)
    (results : dict str) (st : State) :
  let finish := fst (datetime_now (world st)) in
  let total := str_of_nat (List.length nbs) in
  (exists closing,
     trace (snd (RunAllNotebooks.summary nbs start results st)) =
       trace st
       ++ [Stdout (nl ++ banner); Stdout (lit "📊 EXECUTION SUMMARY"); Stdout banner]
       ++ map (fun item => Stdout (RunAllNotebooks.item_line item)) results
       ++ [Stdout (nl ++ banner);
           Stdout (lit "✅ Successful: " ++ str_of_nat (count_status SUCCESS results) ++ lit "/" ++ total);
           Stdout (lit "❌ Failed: " ++ str_of_nat (count_status FAILED results) ++ lit "/" ++ total);
           Stdout (lit "⚠️  Skipped: " ++ str_of_nat (count_status SKIPPED results) ++ lit "/" ++ total);
           Stdout (lit "⏱️  Total time: " ++ str_timedelta (finish - start));
           Stdout banner]
       ++ map Stdout closing)
  /\ (exists closing,
       trace (snd (RunNotebooksPapermill.summary nbs start results st)) =
         trace st
         ++ [Stdout (nl ++ banner); Stdout (lit "📊 EXECUTION SUMMARY"); Stdout banner]
         ++ map (fun item => Stdout (RunNotebooksPapermill.item_line item)) results
         ++ [Stdout (nl ++ banner);
             Stdout (lit "✅ Successful: " ++ str_of_nat (count_status SUCCESS results) ++ lit "/" ++ total);
             Stdout (lit "❌ Failed: " ++ str_of_nat (count_status FAILED results) ++ lit "/" ++ total);
             Stdout (lit "⚠️  Skipped: " ++ str_of_nat (count_status SKIPPED results) ++ lit "/" ++ total);
             Stdout (lit "⏱️  Total time: " ++ str_timedelta (finish - start));
             Stdout banner]
         ++ map Stdout closing)
  /\ (exists closing,
       trace (snd (QuickTest.summary nbs start results st)) =
         trace st
         ++ [Stdout (nl ++ banner); Stdout (lit "📊 QUICK TEST SUMMARY"); Stdout banner]
         ++ map (fun item => Stdout (QuickTest.item_line item)) results
         ++ [Stdout (nl ++ banner);
             Stdout (lit "✅ Passed: " ++ str_of_nat (count_status SUCCESS results) ++ lit "/" ++ total);
             Stdout (lit "❌ Failed: " ++ str_of_nat (count_status FAILED results) ++ lit "/" ++ total);
             Stdout (lit "⏱️  Total time: " ++ str_timedelta (finish - start));
             Stdout banner]
         ++ map Stdout closing
       /\ Forall (fun line => contains (lit "Skipped") line = false) closing).
Proof.
  intros finish total. repeat split.
  - rewrite run_all_summary. cbn [snd trace].
    destruct (0 <? count_status FAILED results)%nat;
      eexists; repeat f_equal;
      match goal with |- ?l = map Stdout _ => instantiate (1 := printed l) end;
      reflexivity.
  - rewrite papermill_summary. cbn [snd trace].
    destruct (0 <? count_status FAILED results)%nat;
      eexists; repeat f_equal;
      match goal with |- ?l = map Stdout _ => instantiate (1 := printed l) end;
      reflexivity.
  - rewrite quick_test_summary. cbn [snd trace].
    destruct (0 <? count_status FAILED results)%nat;
      eexists; (split; [repeat f_equal;
      match goal with |- ?l = map Stdout _ => instantiate (1 := printed l) end;
      reflexivity|]); repeat constructor.
Qed.

Section PapermillMain.
Context {P : Platform}.

(** [main] of run_notebooks_papermill.py once the check for papermill
    has let it through. *)
Lemma papermill_after_prerequisites (st : State) :
  exists code,
    fst (bind (RunNotebooksPapermill.execute_all RunNotebooksPapermill.notebooks)
           (fun r => RunNotebooksPapermill.summary RunNotebooksPapermill.notebooks
                       (fst r) (snd r)) st) = Exit code
    /\ (code = 0 \/ code = 1)%Z.
Proof.
  destruct (papermill_batch (nbs:=RunNotebooksPapermill.notebooks) st notebooks_nodup)
    as (runs & w & _ & _ & Hrun).
  unfold bind. rewrite Hrun. cbn [fst snd]. rewrite papermill_summary. cbn [fst].
  eexists. split; [reflexivity|].
  destruct (0 <? _)%nat; auto.
Qed.

Lemma papermill_main_outcome (st : State) :
  fst (RunNotebooksPapermill.main st) = Exit 0%Z
  \/ fst (RunNotebooksPapermill.main st) = Exit 1%Z
  \/ exists e, fst (RunNotebooksPapermill.main st) = Raise e.
Proof.
  remember (fst (RunNotebooksPapermill.main st)) as o eqn:Ho.
  unfold RunNotebooksPapermill.main, RunNotebooksPapermill.main_on in Ho.
  unfold bind at 1 in Ho.
  destruct (RunNotebooksPapermill.prerequisites st) as [[[]|e|c] st'] eqn:E.
  - destruct (papermill_after_prerequisites st') as (code & Hc & Hcode).
    rewrite Hc in Ho. destruct Hcode; subst; auto.
  - right; right. now exists e.
  - rewrite papermill_prerequisites in E.
    destruct (fst (import_papermill (world st))) as [[]|];
      try destruct (fst (subprocess_run _ false _)) as [[]|];
      inversion E; subst; auto.
Qed.

Lemma papermill_main_status (st : State) :
  exit_status (fst (RunNotebooksPapermill.main st)) = 0%Z
  \/ exit_status (fst (RunNotebooksPapermill.main st)) = 1%Z.
Proof.
  destruct (papermill_main_outcome st) as [H | [H | [e H]]]; rewrite H; auto.
Qed.

End PapermillMain.

(** C10.  In every world, [main] of run_all_notebooks.py and of
    quick_test.py ends in [sys.exit(0)] or [sys.exit(1)], and the process
    running run_notebooks_papermill.py ends with exit status 0 or 1.  When
    papermill cannot be imported ([ImportError]) and [uv add papermill]
    fails, run_notebooks_papermill.py ends in [sys.exit(1)] having made no
    external call but that import and that installation attempt: no
    notebook was run. *)
Theorem exit_status_is_0_or_1 `{P : Platform} (st : State) :
  (fst (RunAllNotebooks.main st) = Exit 0%Z \/ fst (RunAllNotebooks.main st) = Exit 1%Z)
  /\ (fst (QuickTest.main st) = Exit 0%Z \/ fst (QuickTest.main st) = Exit 1%Z)
  /\ (exit_status (fst (RunNotebooksPapermill.main st)) = 0%Z
      \/ exit_status (fst (RunNotebooksPapermill.main st)) = 1%Z)
  /\ (forall msg msg' returncode stderr,
        fst (import_papermill (world st)) = Some (ImportError msg) ->
        fst (subprocess_run [lit "uv"; lit "add"; lit "papermill"] false
               (snd (import_papermill (world st))))
          = Some (CalledProcessError msg' returncode stderr) ->
        fst (RunNotebooksPapermill.main st) = Exit 1%Z
        /\ external (trace (snd (RunNotebooksPapermill.main st))) =
           external (trace st)
           ++ [ImportPapermill;
               SubprocessRun [lit "uv"; lit "add"; lit "papermill"] false]).
Proof.
  split; [|split; [|split]].
  - destruct (run_all_main st notebooks_nodup) as (runs & st1 & _ & _ & _ & _ & Hmain).
    unfold RunAllNotebooks.main. rewrite Hmain, run_all_summary. cbn [fst].
    destruct (0 <? _)%nat; auto.
  - destruct (quick_test_main (nbs:=QuickTest.notebooks) st notebooks_nodup)
      as (runs & st1 & _ & _ & _ & _ & Hmain).
    unfold QuickTest.main. rewrite Hmain, quick_test_summary. cbn [fst].
    destruct (0 <? _)%nat; auto.
  - apply papermill_main_status.
  - intros msg msg' returncode stderr Himport Hinstall.
    unfold RunNotebooksPapermill.main, RunNotebooksPapermill.main_on, bind.
    rewrite papermill_prerequisites. unfold uv_add_papermill.
    rewrite Himport, Hinstall. cbn [fst snd trace]. split; [reflexivity|].
    rewrite !external_app. reflexivity.
Qed.

(** C2.  The runner invocations contain every fault.  In every world and
    for every argument, each of the three runners returns a boolean: it
    never raises and never exits.  Whenever the external executor raises
    (a non-zero exit status, or any other exception of the process launch,
    of the import or of the library call), the runner returns [False], and
    the last thing it does is print the diagnostic of that fault. *)
Theorem runner_contains_faults `{P : Platform} (p : Path) (timeout : Z)
    (allow : bool) (out : option Path) (st : State) :
  let w1 := snd (datetime_now (world st)) in
  let c := mkPmCall (str_of_path p)
             (str_of_path match out with None => p | Some q => q end)
             (lit "python3") true true in
  (exists b st', RunAllNotebooks.run_notebook p timeout allow st = (Return b, st'))
  /\ (exists b st', QuickTest.run_notebook p timeout allow st = (Return b, st'))
  /\ (exists b st',
        RunNotebooksPapermill.run_notebook_papermill p out st = (Return b, st'))
  /\ (forall e,
        fst (subprocess_run (RunAllNotebooks.command p timeout allow) true w1) = Some e ->
        fst (RunAllNotebooks.run_notebook p timeout allow st) = Return false
        /\ exists before,
             trace (snd (RunAllNotebooks.run_notebook p timeout allow st))
             = before ++ run_all_failure p e)
  /\ (forall e,
        fst (subprocess_run (QuickTest.command p timeout allow) true w1) = Some e ->
        fst (QuickTest.run_notebook p timeout allow st) = Return false
        /\ exists before,
             trace (snd (QuickTest.run_notebook p timeout allow st))
             = before ++ quick_test_failure e)
  /\ (forall e,
        fst (import_papermill w1) = Some e
        \/ (fst (import_papermill w1) = None
            /\ fst (pm_execute_notebook c (snd (import_papermill w1))) = Some e) ->
        fst (RunNotebooksPapermill.run_notebook_papermill p out st) = Return false
        /\ exists before,
             trace (snd (RunNotebooksPapermill.run_notebook_papermill p out st))
             = before ++ papermill_failure p e).
Proof.
  intros w1 c.
  rewrite run_all_run_notebook, quick_test_run_notebook, papermill_run_notebook.
  cbv zeta. fold w1 c. split; [|split; [|split; [|split; [|split]]]].
  - destruct (fst (subprocess_run _ true w1)); eauto.
  - destruct (fst (subprocess_run _ true w1)); eauto.
  - destruct (fst (import_papermill w1)); eauto.
    destruct (fst (pm_execute_notebook c _)); eauto.
  - intros e He. rewrite He. cbn [fst snd trace]. split; [reflexivity|].
    rewrite app_assoc. eauto.
  - intros e He. rewrite He. cbn [fst snd trace]. split; [reflexivity|].
    rewrite app_assoc. eauto.
  - intros e [He | [Hi He]]; rewrite ?Hi, He; cbn [fst snd trace];
      (split; [reflexivity|]).
    + rewrite app_assoc. eauto.
    + eexists. apply app_cons_split.
Qed.

Section FailedIteration.
Context {P : Platform}.
Variables (notebook_name : str) (rest : list str) (d : dict str) (st : State).
Variable e : error.

Lemma run_all_failed_iteration :
  path_exists (truediv RunAllNotebooks.notebooks_dir notebook_name) (world st) = true ->
  fst (subprocess_run
         (RunAllNotebooks.command
            (truediv RunAllNotebooks.notebooks_dir notebook_name) 1800 false)
         true (snd (datetime_now (world st)))) = Some e ->
  exists st1 before,
    RunAllNotebooks.execute_one notebook_name d st
    = (Return (dict_set d notebook_name FAILED), st1)
    /\ trace st1
       = before
         ++ run_all_failure (truediv RunAllNotebooks.notebooks_dir notebook_name) e.
Proof.
  intros Hp He. rewrite (run_all_present _ _ _ Hp), run_all_run_notebook.
  cbv zeta. rewrite He. cbn [fst snd].
  do 2 eexists. split; [reflexivity|]. cbn [trace]. rewrite app_assoc. reflexivity.
Qed.

Lemma quick_test_failed_iteration :
  path_exists (truediv QuickTest.notebooks_dir notebook_name) (world st) = true ->
  fst (subprocess_run
         (QuickTest.command (truediv QuickTest.notebooks_dir notebook_name) 600 false)
         true (snd (datetime_now (world st)))) = Some e ->
  exists st1 before,
    QuickTest.execute_one notebook_name d st
    = (Return (dict_set d notebook_name FAILED), st1)
    /\ trace st1 = before ++ quick_test_failure e.
Proof.
  intros Hp He. rewrite (quick_test_present _ _ _ Hp), quick_test_run_notebook.
  cbv zeta. rewrite He. cbn [fst snd].
  do 2 eexists. split; [reflexivity|]. cbn [trace]. rewrite app_assoc. reflexivity.
Qed.


End FailedIteration.

(** C9.  [allow_errors] is never set.  In every run of [main] of
    run_all_notebooks.py and of quick_test.py, the processes launched are
    exactly the nbconvert commands of the attempted notebooks, each one the
    command that [run_notebook] builds with [allow_errors] false: the
    listed arguments with nothing appended.  When such a process fails,
    whatever the failure, the iteration records FAILED. *)
Theorem allow_errors_is_never_set `{P : Platform} (st : State)
    (notebook_name : str) (d : dict str) :
  (exists names,
     incl names RunAllNotebooks.notebooks
     /\ external (trace (snd (RunAllNotebooks.main st))) =
        external (trace st)
        ++ map (fun n =>
                  SubprocessRun
                    [ lit "jupyter"; lit "nbconvert"; lit "--to"; lit "notebook";
                      lit "--execute"; lit "--inplace";
                      lit "--ExecutePreprocessor.timeout=1800";
                      str_of_path (truediv RunAllNotebooks.notebooks_dir n) ]
                    true) names)
  /\ (exists names,
        incl names QuickTest.notebooks
        /\ external (trace (snd (QuickTest.main st))) =
           external (trace st)
           ++ map (fun n =>
                     SubprocessRun
                       [ lit "jupyter"; lit "nbconvert"; lit "--to"; lit "notebook";
                         lit "--execute";
                         lit "--ExecutePreprocessor.timeout=600";
                         str_of_path (truediv QuickTest.notebooks_dir n);
                         lit "--output";
                         str_of_path (truediv QuickTest.notebooks_dir n) ]
                       true) names)
  /\ (forall e,
        path_exists (truediv RunAllNotebooks.notebooks_dir notebook_name) (world st) = true ->
        fst (subprocess_run
               (RunAllNotebooks.command
                  (truediv RunAllNotebooks.notebooks_dir notebook_name) 1800 false)
               true (snd (datetime_now (world st)))) = Some e ->
        fst (RunAllNotebooks.execute_one notebook_name d st)
        = Return (dict_set d notebook_name FAILED))
  /\ (forall e,
        path_exists (truediv QuickTest.notebooks_dir notebook_name) (world st) = true ->
        fst (subprocess_run
               (QuickTest.command
                  (truediv QuickTest.notebooks_dir notebook_name) 600 false)
               true (snd (datetime_now (world st)))) = Some e ->
        fst (QuickTest.execute_one notebook_name d st)
        = Return (dict_set d notebook_name FAILED)).
Proof.
  split; [|split; [|split]].
  - destruct (run_all_main st notebooks_nodup)
      as (runs & st1 & Hn & Hok & _ & Hext & Hmain).
    exists (map item_name (filter attempted runs)). split.
    + rewrite <- Hn. intros n Hin. apply in_map_iff in Hin as (r & <- & Hr).
      apply in_map. now apply filter_In in Hr.
    + unfold RunAllNotebooks.main.
      rewrite Hmain, run_all_summary_external, Hext. f_equal.
      apply (external_of_runs
               (fun n => SubprocessRun
                           (RunAllNotebooks.command
                              (truediv RunAllNotebooks.notebooks_dir n) 1800 false) true)).
      exact Hok.
  - destruct (quick_test_main (nbs:=QuickTest.notebooks) st notebooks_nodup)
      as (runs & st1 & Hn & Hok & _ & Hext & Hmain).
    exists (map item_name (filter attempted runs)). split.
    + rewrite <- Hn. intros n Hin. apply in_map_iff in Hin as (r & <- & Hr).
      apply in_map. now apply filter_In in Hr.
    + unfold QuickTest.main.
      rewrite Hmain, quick_test_summary_external, Hext. f_equal.
      apply (external_of_runs
               (fun n => SubprocessRun
                           (QuickTest.command
                              (truediv QuickTest.notebooks_dir n) 600 false) true)).
      exact Hok.
  - intros e Hp He.
    destruct (run_all_failed_iteration notebook_name d st Hp He) as (st1 & b & H & _).
    now rewrite H.
  - intros e Hp He.
    destruct (quick_test_failed_iteration notebook_name d st Hp He) as (st1 & b & H & _).
    now rewrite H.
Qed.

(** ** The tail kept by quick_test.py *)

Lemma error_msg_long (stderr : str) :
  (500 < len stderr)%Z ->
  len (QuickTest.error_msg stderr) = 500%Z
  /\ stderr = firstn (List.length stderr - 500) stderr ++ QuickTest.error_msg stderr.
Proof.
  intros H. unfold QuickTest.error_msg, slice_from, len in *.
  apply Z.ltb_lt in H as Hb. rewrite Hb. cbn [Z.ltb Z.compare].
  replace (Z.to_nat (Z.max 0 (Z.of_nat (List.length stderr) + -500)))
    with (List.length stderr - 500) by lia.
  split.
  - rewrite length_skipn. lia.
  - now rewrite firstn_skipn.
Qed.

Lemma error_msg_short (stderr : str) :
  (len stderr <= 500)%Z -> QuickTest.error_msg stderr = stderr.
Proof.
  intros H. unfold QuickTest.error_msg.
  destruct (Z.ltb_spec 500 (len stderr)); [lia | reflexivity].
Qed.

(** C7, as amended.  In quick_test.py, the diagnostic displayed for a
    process that exited with a non-zero status is the captured error text
    when that text has at most 500 characters, and exactly its last 500
    characters when it has more.  run_all_notebooks.py displays the
    captured error text whole, whatever its length. *)
Theorem diagnostic_display `{P : Platform} (p : Path) (timeout : Z)
    (allow : bool) (st : State) (msg : str) (returncode : Z) (stderr : str) :
  let w1 := snd (datetime_now (world st)) in
  ((500 < len stderr)%Z ->
   len (QuickTest.error_msg stderr) = 500%Z
   /\ exists dropped, stderr = dropped ++ QuickTest.error_msg stderr)
  /\ ((len stderr <= 500)%Z -> QuickTest.error_msg stderr = stderr)
  /\ (fst (subprocess_run (QuickTest.command p timeout allow) true w1)
        = Some (CalledProcessError msg returncode stderr) ->
      exists before,
        trace (snd (QuickTest.run_notebook p timeout allow st))
        = before ++ [Stdout (lit "Error: ..." ++ QuickTest.error_msg stderr)])
  /\ (fst (subprocess_run (RunAllNotebooks.command p timeout allow) true w1)
        = Some (CalledProcessError msg returncode stderr) ->
      exists before,
        trace (snd (RunAllNotebooks.run_notebook p timeout allow st))
        = before ++ [Stdout (lit "Error: " ++ stderr)]).
Proof.
  intros w1. split; [|split; [|split]].
  - intros H. destruct (error_msg_long stderr H) as [Hl Hs]. split; [exact Hl|].
    eexists. exact Hs.
  - apply error_msg_short.
  - intros H. rewrite quick_test_run_notebook. cbv zeta. fold w1. rewrite H.
    cbn [snd trace quick_test_failure]. eexists. apply app_cons_split.
  - intros H. rewrite run_all_run_notebook. cbv zeta. fold w1. rewrite H.
    cbn [snd trace run_all_failure]. eexists. apply app_cons_split.
Qed.


(** * Instances of the claims on test doubles *)

Lemma runner_contains_faults_witness :
  let P := failing (lit "CellExecutionError") in
  let st := stub_start P 0%Z in
  let p := truediv RunAllNotebooks.notebooks_dir regression in
  fst (RunAllNotebooks.run_notebook p 1800 false st) = Return false
  /\ fst (QuickTest.run_notebook p 600 false st) = Return false
  /\ fst (RunNotebooksPapermill.run_notebook_papermill p None st) = Return false.
Proof.
  intros P st p.
  destruct (runner_contains_faults (P:=P) p 1800 false None st)
    as (_ & _ & _ & H1 & _).
  destruct (runner_contains_faults (P:=P) p 600 false None st)
    as (_ & _ & _ & _ & H2 & H3).
  split; [|split].
  - eapply H1. reflexivity.
  - eapply H2. reflexivity.
  - eapply H3. right. split; reflexivity.
Defined.

Lemma missing_item_is_skipped_witness :
  let P := without [clustering] in
  let st := stub_start P 0%Z in
  let skipped := mkState (world st) (trace st ++ [Stdout (skip_line clustering)]) in
  path_exists (truediv RunAllNotebooks.notebooks_dir clustering) (world st) = false
  /\ for_each [clustering; association] RunAllNotebooks.execute_one [] st
     = for_each [association] RunAllNotebooks.execute_one [(clustering, SKIPPED)] skipped
  /\ for_each [clustering; association] QuickTest.execute_one [] st
     = for_each [association] QuickTest.execute_one [(clustering, SKIPPED)] skipped
  /\ for_each [clustering; association] RunNotebooksPapermill.execute_one [] st
     = for_each [association] RunNotebooksPapermill.execute_one
         [(clustering, SKIPPED)] skipped.
Proof.
  intros P st skipped.
  destruct (missing_item_is_skipped (P:=P) clustering [association] [] st)
    as (H1 & H2 & H3).
  split; [reflexivity|]. split; [|split].
  - apply H1. reflexivity.
  - apply H2. reflexivity.
  - apply H3. reflexivity.
Defined.

Lemma exit_status_is_0_or_1_witness :
  let st := stub_start no_papermill 0%Z in
  fst (RunNotebooksPapermill.main st) = Exit 1%Z
  /\ external (trace (snd (RunNotebooksPapermill.main st)))
     = [ImportPapermill; SubprocessRun [lit "uv"; lit "add"; lit "papermill"] false].
Proof.
  intros st.
  destruct (exit_status_is_0_or_1 (P:=no_papermill) st) as (_ & _ & _ & H).
  eapply H; reflexivity.
Defined.

Lemma allow_errors_is_never_set_witness :
  let P := failing (lit "CellExecutionError") in
  let st := stub_start P 0%Z in
  fst (RunAllNotebooks.execute_one regression [] st) = Return [(regression, FAILED)]
  /\ fst (QuickTest.execute_one regression [] st) = Return [(regression, FAILED)].
Proof.
  intros P st.
  destruct (allow_errors_is_never_set (P:=P) st regression []) as (_ & _ & H1 & H2).
  split.
  - eapply H1; reflexivity.
  - eapply H2; reflexivity.
Defined.

Lemma diagnostic_display_witness :
  let P := failing long_stderr in
  let st := stub_start P 0%Z in
  let p := truediv QuickTest.notebooks_dir regression in
  (500 < len long_stderr)%Z
  /\ len (QuickTest.error_msg long_stderr) = 500%Z
  /\ (len (lit "short") <= 500)%Z
  /\ QuickTest.error_msg (lit "short") = lit "short"
  /\ (exists before,
        trace (snd (QuickTest.run_notebook p 600 false st))
        = before ++ [Stdout (lit "Error: ..." ++ QuickTest.error_msg long_stderr)])
  /\ (exists before,
        trace (snd (RunAllNotebooks.run_notebook p 1800 false st))
        = before ++ [Stdout (lit "Error: " ++ long_stderr)]).
Proof.
  intros P st p.
  destruct (diagnostic_display (P:=P) p 600 false st
              (lit "Command returned non-zero exit status 1.") 1 long_stderr)
    as (H1 & _ & H3 & _).
  destruct (diagnostic_display (P:=P) p 1800 false st
              (lit "Command returned non-zero exit status 1.") 1 long_stderr)
    as (_ & _ & _ & H4).
  destruct (diagnostic_display (P:=P) p 600 false st
              (lit "Command returned non-zero exit status 1.") 1 (lit "short"))
    as (_ & H2 & _).
  assert (Hlong : (500 < len long_stderr)%Z) by reflexivity.
  assert (Hshort : (len (lit "short") <= 500)%Z) by (vm_compute; discriminate).
  split; [exact Hlong|]. split; [apply (H1 Hlong)|].
  split; [exact Hshort|]. split; [apply (H2 Hshort)|].
  split.
  - apply H3. reflexivity.
  - apply H4. reflexivity.
Defined.


(** * Where the claims as written fail *)

(** C7 as written fails for run_all_notebooks.py: an error text of 501
    characters is displayed whole, not cut to its last 500 characters. *)
Lemma full_diagnostic_counterexample :
  let P := failing long_stderr in
  let r := RunAllNotebooks.run_notebook
             (truediv RunAllNotebooks.notebooks_dir regression) 1800 false
             (stub_start P 0%Z) in
  len long_stderr = 501%Z
  /\ last (printed (trace (snd r))) [] = lit "Error: " ++ long_stderr
  /\ str_eqb (last (printed (trace (snd r))) [])
       (lit "Error: " ++ slice_from long_stderr (-500)) = false.
Proof.
  vm_compute. repeat split.
Qed.

(** C8 as written fails for quick_test.py: with two of the five notebooks
    missing, the skipped count is 2, and the summary that follows the
    per-item lines is the five lines below: it states the success count,
    the failure count and the total time, and no skipped count. *)
Lemma quick_test_summary_counterexample :
  let P := without [clustering; association] in
  let st := stub_start P 0%Z in
  let out := printed (trace (snd (QuickTest.main st))) in
  (exists start results st1,
     QuickTest.execute_all QuickTest.notebooks st = (Return (start, results), st1)
     /\ count_status SKIPPED results = 2)
  /\ skipn 38 out =
     [ nl ++ banner;
       lit "✅ Passed: 3/5";
       lit "❌ Failed: 0/5";
       lit "⏱️  Total time: 30";
       banner;
       nl ++ lit "🎉 All quick tests passed!" ]
  /\ forallb (fun line => negb (contains (lit "Skipped") line)) out = true.
Proof.
  split; [|vm_compute; split; reflexivity].
  do 3 eexists. vm_compute. split; reflexivity.
Qed.

(** * Further properties of the three runners *)

(** ** Which items were attempted *)

Lemma attempted_entries (runs : list item_run) :
  map item_name (filter attempted runs)
  = keys (filter not_skipped (map item_entry runs)).
Proof.
  induction runs as [|r runs IH]; [reflexivity|].
  cbn [map filter]. unfold not_skipped at 1, attempted at 1. cbn [item_entry snd].
  destruct (negb (str_eqb (item_status r) SKIPPED)); cbn [map keys fst];
    unfold keys in IH; now rewrite IH.
Qed.

(** X1.  Fail-forward, one launch per notebook found.  In every world, the
    processes that the loop of run_all_notebooks.py and of quick_test.py
    launches are exactly the nbconvert commands of the notebooks that the
    returned dictionary does not mark SKIPPED, one each, in the order of
    the dictionary: a failure of one notebook neither stops nor repeats
    anything. *)
Theorem one_launch_per_notebook_found `{P : Platform} (st : State) :
  (exists start results st1,
     RunAllNotebooks.execute_all RunAllNotebooks.notebooks st
       = (Return (start, results), st1)
     /\ external (trace st1) =
        external (trace st)
        ++ map (fun n =>
                  SubprocessRun
                    (RunAllNotebooks.command
                       (truediv RunAllNotebooks.notebooks_dir n) 1800 false) true)
             (keys (filter not_skipped results)))
  /\ (exists start results st1,
        QuickTest.execute_all QuickTest.notebooks st
          = (Return (start, results), st1)
        /\ external (trace st1) =
           external (trace st)
           ++ map (fun n =>
                     SubprocessRun
                       (QuickTest.command
                          (truediv QuickTest.notebooks_dir n) 600 false) true)
                (keys (filter not_skipped results))).
Proof.
  split.
  - destruct (run_all_main st notebooks_nodup)
      as (runs & st1 & _ & Hok & Hrun & Hext & _).
    do 3 eexists. split; [exact Hrun|]. rewrite Hext. f_equal.
    rewrite <- attempted_entries. now apply external_of_runs.
  - destruct (quick_test_main (nbs:=QuickTest.notebooks) st notebooks_nodup)
      as (runs & st1 & _ & Hok & Hrun & Hext & _).
    do 3 eexists. split; [exact Hrun|]. rewrite Hext. f_equal.
    rewrite <- attempted_entries. now apply external_of_runs.
Qed.

(** X2.  What is recorded for a notebook that was found.  run_all_notebooks.py
    and quick_test.py record SUCCESS exactly when the launched process
    returns and FAILED when it raises anything; run_notebooks_papermill.py
    records SUCCESS exactly when both the import of papermill and
    [pm.execute_notebook] return, and FAILED otherwise.  The iteration
    itself always returns. *)
Theorem outcome_follows_the_executor `{P : Platform} (notebook_name : str)
    (d : dict str) (st : State) :
  let w1 := snd (datetime_now (world st)) in
  (path_exists (truediv RunAllNotebooks.notebooks_dir notebook_name) (world st) = true ->
   fst (RunAllNotebooks.execute_one notebook_name d st)
   = Return (dict_set d notebook_name
               match fst (subprocess_run
                            (RunAllNotebooks.command
                               (truediv RunAllNotebooks.notebooks_dir notebook_name)
                               1800 false) true w1) with
               | None => SUCCESS
               | Some _ => FAILED
               end))
  /\ (path_exists (truediv QuickTest.notebooks_dir notebook_name) (world st) = true ->
      fst (QuickTest.execute_one notebook_name d st)
      = Return (dict_set d notebook_name
                  match fst (subprocess_run
                               (QuickTest.command
                                  (truediv QuickTest.notebooks_dir notebook_name)
                                  600 false) true w1) with
                  | None => SUCCESS
                  | Some _ => FAILED
                  end))
  /\ (path_exists (truediv RunNotebooksPapermill.notebooks_dir notebook_name) (world st) = true ->
      fst (RunNotebooksPapermill.execute_one notebook_name d st)
      = Return (dict_set d notebook_name
                  match fst (import_papermill w1) with
                  | Some _ => FAILED
                  | None =>
                      match fst (pm_execute_notebook (papermill_call notebook_name)
                                   (snd (import_papermill w1))) with
                      | None => SUCCESS
                      | Some _ => FAILED
                      end
                  end)).
Proof.
  intros w1. split; [|split]; intros Hp.
  - rewrite (run_all_present _ _ _ Hp), run_all_run_notebook. cbv zeta. fold w1.
    destruct (fst (subprocess_run _ true w1)); reflexivity.
  - rewrite (quick_test_present _ _ _ Hp), quick_test_run_notebook. cbv zeta. fold w1.
    destruct (fst (subprocess_run _ true w1)); reflexivity.
  - rewrite (papermill_present _ _ _ Hp), papermill_run_notebook. cbv zeta. fold w1.
    fold (papermill_call notebook_name).
    destruct (fst (import_papermill w1)); [reflexivity|].
    destruct (fst (pm_execute_notebook _ _)); reflexivity.
Qed.

Lemma outcome_follows_the_executor_witness :
  let st := stub_start healthy 0%Z in
  fst (RunAllNotebooks.execute_one regression [] st) = Return [(regression, SUCCESS)]
  /\ fst (QuickTest.execute_one regression [] st) = Return [(regression, SUCCESS)]
  /\ fst (RunNotebooksPapermill.execute_one regression [] st)
     = Return [(regression, SUCCESS)].
Proof.
  intros st.
  destruct (outcome_follows_the_executor (P:=healthy) regression [] st)
    as (H1 & H2 & H3).
  split; [|split].
  - apply H1. reflexivity.
  - apply H2. reflexivity.
  - apply H3. reflexivity.
Defined.

(** ** A run in which no notebook is found *)

Section NothingFound.
Context {P : Platform}.
Hypothesis nothing_exists : forall p w, path_exists p w = false.





End NothingFound.



(** ** The check for papermill, further *)

Lemma printed_app (l l' : list event) :
  printed (l ++ l') = printed l ++ printed l'.
Proof. unfold printed. apply flat_map_app. Qed.

(** X4.  What the check for papermill does not handle.
    [check_papermill_installed] catches [ImportError] only and
    [install_papermill] catches [CalledProcessError] only: when the import
    raises another exception, or when launching [uv add papermill] raises
    something else than a non-zero exit status (for instance because [uv]
    is not installed), [main] of run_notebooks_papermill.py ends with that
    exception uncaught, without the "Cannot proceed" message and before
    any notebook is looked at. *)
Theorem papermill_check_lets_other_errors_escape `{P : Platform} (st : State) :
  (forall e,
     fst (import_papermill (world st)) = Some e ->
     not_import_error e ->
     fst (RunNotebooksPapermill.main st) = Raise e
     /\ external (trace (snd (RunNotebooksPapermill.main st)))
        = external (trace st) ++ [ImportPapermill]
     /\ printed (trace (snd (RunNotebooksPapermill.main st)))
        = printed (trace st)
          ++ [lit "🚀 PyCaret Notebooks Executor (Papermill)"; banner])
  /\ (forall msg e,
        fst (import_papermill (world st)) = Some (ImportError msg) ->
        fst (subprocess_run uv_add_papermill false
               (snd (import_papermill (world st)))) = Some e ->
        not_called_process_error e ->
        fst (RunNotebooksPapermill.main st) = Raise e
        /\ external (trace (snd (RunNotebooksPapermill.main st)))
           = external (trace st)
             ++ [ImportPapermill; SubprocessRun uv_add_papermill false]
        /\ printed (trace (snd (RunNotebooksPapermill.main st)))
           = printed (trace st)
             ++ [lit "🚀 PyCaret Notebooks Executor (Papermill)"; banner;
                 lit "⚠️  Papermill not found";
                 lit "📦 Installing papermill..."]).
Proof.
  split.
  - intros e He Hne.
    unfold RunNotebooksPapermill.main, RunNotebooksPapermill.main_on, bind.
    rewrite papermill_prerequisites, He.
    destruct e; try contradiction; cbn [fst snd trace];
      rewrite !external_app, !printed_app; repeat split.
  - intros msg e Hi He Hne.
    unfold RunNotebooksPapermill.main, RunNotebooksPapermill.main_on, bind.
    rewrite papermill_prerequisites, Hi, He.
    destruct e; try contradiction; cbn [fst snd trace];
      rewrite !external_app, !printed_app; repeat split.
Qed.

Lemma papermill_check_lets_other_errors_escape_witness :
  fst (RunNotebooksPapermill.main (stub_start broken_papermill 0%Z))
  = Raise (OtherException (lit "module 'nbformat' has no attribute 'v4'"))
  /\ fst (RunNotebooksPapermill.main (stub_start no_uv 0%Z))
     = Raise (OtherException (lit "[Errno 2] No such file or directory: 'uv'")).
Proof.
  destruct (papermill_check_lets_other_errors_escape
              (P:=broken_papermill) (stub_start broken_papermill 0%Z)) as [H1 _].
  destruct (papermill_check_lets_other_errors_escape
              (P:=no_uv) (stub_start no_uv 0%Z)) as [_ H2].
  split.
  - eapply H1; [reflexivity | exact I].
  - eapply H2; [reflexivity | reflexivity | exact I].
Defined.

Section NeverImportable.
Context {P : Platform}.
Hypothesis import_fails : forall w, fst (import_papermill w) <> None.

Lemma papermill_iteration_without_import (notebook_name : str) (d : dict str)
    (st : State) :
  exists r w,
    item_name r = notebook_name /\ skipped_or_import_failed r /\
    RunNotebooksPapermill.execute_one notebook_name d st =
    (Return (dict_set d notebook_name (item_status r)),
     mkState w (trace st ++ item_events r)).
Proof.
  destruct (path_exists (truediv RunNotebooksPapermill.notebooks_dir notebook_name)
              (world st)) eqn:E.
  - rewrite (papermill_present _ _ _ E), papermill_run_notebook. cbv zeta.
    pose proof (import_fails (snd (datetime_now (world st)))) as Hi.
    destruct (fst (import_papermill (snd (datetime_now (world st))))) as [e|];
      [|contradiction].
    cbn [fst snd].
    eexists (mkItemRun notebook_name FAILED _), _.
    cbn [item_name item_status item_events].
    split; [reflexivity|]. split; [|reflexivity].
    right. split; reflexivity.
  - rewrite (papermill_missing _ _ _ E).
    exists (mkItemRun notebook_name SKIPPED [Stdout (skip_line notebook_name)]), (world st).
    split; [reflexivity|]. split; [|reflexivity]. left. now split.
Qed.

Lemma pm_executions_external (l : list event) :
  pm_executions (external l) = pm_executions l.
Proof.
  unfold pm_executions, external.
  induction l as [|ev l IH]; [reflexivity|].
  destruct ev; cbn [filter is_external is_pm_execute]; now rewrite ?IH.
Qed.

Lemma without_import_entries (runs : list item_run) :
  Forall skipped_or_import_failed runs ->
  Forall (fun item => snd item = SKIPPED \/ snd item = FAILED) (map item_entry runs)
  /\ pm_executions (List.concat (map item_events runs)) = [].
Proof.
  induction 1 as [|r runs Hr _ [IH1 IH2]]; [split; [constructor | reflexivity]|].
  cbn [map List.concat]. split.
  - constructor; [|exact IH1]. cbn [item_entry snd].
    destruct Hr as [[Hs _] | [Hs _]]; auto.
  - unfold pm_executions in *. rewrite filter_app, IH2, app_nil_r.
    destruct Hr as [[_ He] | [_ He]].
    + now rewrite He.
    + fold (pm_executions (item_events r)).
      now rewrite <- pm_executions_external, He.
Qed.

End NeverImportable.

(** X5.  No notebook is executed without papermill.  In a world where the
    import of papermill never succeeds, the loop of
    run_notebooks_papermill.py still returns, records every notebook as
    SKIPPED or FAILED, and never calls [pm.execute_notebook]. *)
Theorem no_execution_without_papermill `{P : Platform} (st : State) :
  (forall w, fst (import_papermill w) <> None) ->
  exists start results st1,
    RunNotebooksPapermill.execute_all RunNotebooksPapermill.notebooks st
    = (Return (start, results), st1)
    /\ keys results = RunNotebooksPapermill.notebooks
    /\ Forall (fun item => snd item = SKIPPED \/ snd item = FAILED) results
    /\ pm_executions (trace st1) = pm_executions (trace st).
Proof.
  intros Himport. unfold RunNotebooksPapermill.execute_all. step.
  match goal with
  | |- context [bind (for_each ?nbs ?b ?d) ?k ?s] =>
      destruct (for_each_runs b skipped_or_import_failed
                  (papermill_iteration_without_import Himport) nbs d s)
        as (runs & w & Hn & Hok & Hrun)
  end.
  destruct (without_import_entries Hok) as [Hlabels Hpm].
  do 3 eexists. unfold bind at 1. rewrite Hrun. unfold ret.
  rewrite record_all_nodup by (rewrite Hn; exact notebooks_nodup).
  split; [reflexivity|]. split; [now rewrite keys_entries|].
  split; [exact Hlabels|]. cbn [trace]. unfold pm_executions in *.
  now rewrite filter_app, Hpm, app_nil_r.
Qed.

Lemma no_execution_without_papermill_witness :
  exists start results st1,
    RunNotebooksPapermill.execute_all RunNotebooksPapermill.notebooks
      (stub_start never_importable 0%Z)
    = (Return (start, results), st1)
    /\ keys results = RunNotebooksPapermill.notebooks
    /\ Forall (fun item => snd item = SKIPPED \/ snd item = FAILED) results
    /\ pm_executions (trace st1) = [].
Proof.
  apply (no_execution_without_papermill (P:=never_importable)
           (stub_start never_importable 0%Z)).
  intros w. cbn. discriminate.
Defined.

(** ** The diagnostic of quick_test.py, further *)

(** X6.  The error text that quick_test.py displays never has more than
    500 characters: it has [min(len(stderr), 500)] of them, it is always
    an end of the captured text, and cutting it again changes nothing. *)
Theorem error_msg_is_a_bounded_tail (stderr : str) :
  len (QuickTest.error_msg stderr) = Z.min (len stderr) 500
  /\ (exists dropped, stderr = dropped ++ QuickTest.error_msg stderr)
  /\ QuickTest.error_msg (QuickTest.error_msg stderr) = QuickTest.error_msg stderr.
Proof.
  destruct (Z.ltb_spec 500 (len stderr)) as [Hlong | Hshort].
  - destruct (error_msg_long stderr Hlong) as [Hl Hs].
    split; [lia|]. split; [eexists; exact Hs|].
    apply error_msg_short. lia.
  - rewrite !(error_msg_short stderr Hshort).
    split; [lia|]. split; [now exists []|reflexivity].
Qed.

(** * scripts/download_datasets.py *)

Section DownloadOne.
Context {P : Platform} {D : Downloads P}.
Variables (d : DownloadDatasets.dataset) (success_count : nat)
  (failed : list str) (st : State).

(** One iteration of the loop, by the answers of [mkdir] and of the
    launched process. *)
Lemma download_one_cases :
  let cmd := DownloadDatasets.command (DownloadDatasets.ds_name d)
               (DownloadDatasets.ds_dir d) in
  let opening :=
    [Stdout (nl ++ DownloadDatasets.banner60);
     Stdout (lit "📥 " ++ DownloadDatasets.ds_desc d);
     Stdout DownloadDatasets.banner60] in
  let w1 := snd (mkdir_parents (DownloadDatasets.ds_dir d) (world st)) in
  let w2 := snd (subprocess_run cmd true w1) in
  DownloadDatasets.download_one d (success_count, failed) st =
  match fst (mkdir_parents (DownloadDatasets.ds_dir d) (world st)) with
  | Some e => (Raise e, mkState w1 (trace st ++ opening))
  | None =>
      match fst (subprocess_run cmd true w1) with
      | None =>
          (Return (success_count + 1, failed),
           mkState w2
             (trace st ++ opening
              ++ [kaggle_launch d; Stdout (captured_stdout cmd w1);
                  Stdout (lit "✅ Downloaded to: "
                          ++ str_of_path (DownloadDatasets.ds_dir d))]))
      | Some (CalledProcessError _ _ stderr) =>
          (Return (success_count, failed ++ [DownloadDatasets.ds_desc d]),
           mkState w2
             (trace st ++ opening
              ++ [kaggle_launch d; Stdout (lit "Error: " ++ stderr);
                  Stdout (lit "❌ Failed to download")]))
      | Some e => (Raise e, mkState w2 (trace st ++ opening ++ [kaggle_launch d]))
      end
  end.
Proof.
  intros cmd opening w1 w2.
  unfold DownloadDatasets.download_one, DownloadDatasets.download_dataset.
  repeat (rewrite bind_assoc || rewrite bind_print). cbn [world trace]. fold cmd.
  unfold bind at 1, DownloadDatasets.mkdir at 1. cbn [world trace].
  subst w2 w1.
  destruct (mkdir_parents (DownloadDatasets.ds_dir d) (world st)) as [[e|] w1];
    cbn [fst snd].
  { subst opening. flatten_trace. reflexivity. }
  unfold bind at 1, DownloadDatasets.run_command, try_except.
  unfold bind at 1, DownloadDatasets.run_capturing, run_checked, call.
  cbn [world trace].
  destruct (subprocess_run cmd true w1) as [[e|] w2]; cbn [fst snd].
  - destruct e; [step; unfold ret at 1; step; unfold ret | unfold raise ..];
      unfold kaggle_launch; fold cmd; subst opening; flatten_trace; reflexivity.
  - step. unfold ret at 1. step. unfold ret, kaggle_launch. fold cmd.
    subst opening. flatten_trace. reflexivity.
Qed.

End DownloadOne.

Lemma downloaded_and_failed (ds : list DownloadDatasets.dataset) (oks : list bool) :
  List.length oks = List.length ds ->
  downloaded oks + List.length (failed_of ds oks) = List.length ds.
Proof.
  revert oks; induction ds as [|d ds IH]; intros [|ok oks] H; try discriminate;
    [reflexivity|].
  injection H as H. specialize (IH oks H).
  unfold downloaded, failed_of in *. destruct ok; cbn in *; lia.
Qed.

Section DownloadLoop.
Context {P : Platform} {D : Downloads P}.

(** A loop that went through: one launch per dataset, in order, whatever
    failed; the successes are counted and the failures listed in order. *)
Lemma download_loop (ds : list DownloadDatasets.dataset) :
  forall acc st acc' st',
    for_each ds DownloadDatasets.download_one acc st = (Return acc', st') ->
    exists oks,
      List.length oks = List.length ds
      /\ fst acc' = fst acc + downloaded oks
      /\ snd acc' = snd acc ++ failed_of ds oks
      /\ external (trace st') = external (trace st) ++ map kaggle_launch ds.
Proof.
  induction ds as [|d ds IH]; intros [sc failed] st acc' st' H.
  - cbn in H. injection H as <- <-. exists []. cbn.
    now rewrite Nat.add_0_r, !app_nil_r.
  - cbn [for_each] in H. unfold bind at 1 in H.
    rewrite download_one_cases in H. cbv zeta in H.
    destruct (fst (mkdir_parents _ _)) as [e|]; [discriminate|].
    destruct (fst (subprocess_run _ true _)) as [[msg rc stderr|msg|msg]|];
      try discriminate; apply IH in H as (oks & Hl & Hs & Hf & Hx);
      cbn [fst snd trace] in *.
    + exists (false :: oks). cbn [List.length]. split; [now rewrite Hl|].
      split; [exact Hs|]. split.
      * rewrite Hf, <- app_assoc. reflexivity.
      * rewrite Hx, !external_app. cbn [map]. rewrite <- !app_assoc. reflexivity.
    + exists (true :: oks). cbn [List.length]. split; [now rewrite Hl|].
      split; [rewrite Hs; unfold downloaded; cbn; lia|]. split.
      * exact Hf.
      * rewrite Hx, !external_app. cbn [map]. rewrite <- !app_assoc. reflexivity.
Qed.

(** The loop never exits: it returns or it raises. *)
Lemma download_loop_never_exits (ds : list DownloadDatasets.dataset) :
  forall acc st c,
    fst (for_each ds DownloadDatasets.download_one acc st) <> Exit c.
Proof.
  induction ds as [|d ds IH]; intros [sc failed] st c.
  - discriminate.
  - cbn [for_each]. unfold bind at 1.
    rewrite download_one_cases. cbv zeta.
    destruct (fst (mkdir_parents _ _)) as [e|]; [discriminate|].
    destruct (fst (subprocess_run _ true _)) as [[msg rc stderr|msg|msg]|];
      try discriminate; apply IH.
Qed.

End DownloadLoop.

(** X7.  The accounting of download_datasets.py.  Whenever the loop of
    [main] goes through, each dataset has either been counted as a success
    or had its description appended to [failed], in the order of the list:
    [success_count + len(failed)] is the number of datasets.  [main] then
    returns normally when nothing failed and calls [sys.exit(1)] otherwise;
    the exit status is 0 exactly when all five downloads succeeded. *)
Theorem download_accounting {P : Platform} {D : Downloads P} (st st1 : State)
    (success_count : nat) (failed : list str) :
  DownloadDatasets.download_all DownloadDatasets.datasets st
    = (Return (success_count, failed), st1) ->
  (exists oks,
     List.length oks = 5
     /\ success_count = downloaded oks
     /\ failed = failed_of DownloadDatasets.datasets oks)
  /\ success_count + List.length failed = 5
  /\ fst (DownloadDatasets.main st)
     = match failed with
       | [] => Return tt
       | _ :: _ => Exit 1%Z
       end
  /\ (exit_status (fst (DownloadDatasets.main st)) = 0%Z <-> success_count = 5).
Proof.
  intros Hrun.
  assert (Hmain : fst (DownloadDatasets.main st)
                  = match failed with [] => Return tt | _ :: _ => Exit 1%Z end).
  { unfold DownloadDatasets.main, DownloadDatasets.main_on, bind at 1.
    rewrite Hrun. cbn [fst snd]. unfold DownloadDatasets.summary.
    destruct failed; step; [reflexivity|]. reflexivity. }
  unfold DownloadDatasets.download_all in Hrun. revert Hrun. step. intros Hrun.
  apply download_loop in Hrun as (oks & Hl & Hs & Hf & _).
  cbn [fst snd app Nat.add] in *.
  pose proof (downloaded_and_failed DownloadDatasets.datasets oks Hl) as Hsum.
  rewrite <- Hf, <- Hs in Hsum. change (List.length DownloadDatasets.datasets) with 5 in *.
  split; [exists oks; auto|]. split; [exact Hsum|]. split; [exact Hmain|].
  rewrite Hmain. destruct failed; cbn [exit_status List.length] in *; split; intros;
    first [lia | discriminate].
Qed.

Lemma download_accounting_witness :
  let D := quiet_downloads healthy in
  let st := stub_start healthy 0%Z in
  5 + List.length (@nil str) = 5
  /\ fst (@DownloadDatasets.main healthy D st) = Return tt
  /\ (exit_status (fst (@DownloadDatasets.main healthy D st)) = 0%Z <-> 5 = 5).
Proof.
  intros D st.
  pose (r := @DownloadDatasets.download_all healthy D (@DownloadDatasets.datasets healthy) st).
  assert (Hr : r = (Return (5, []), snd r)) by (vm_compute; reflexivity).
  destruct (@download_accounting healthy D st (snd r) 5 [] Hr) as (_ & H1 & H2 & H3).
  split; [exact H1|]. split; [exact H2 | exact H3].
Defined.

(** X8.  Every dataset is attempted.  Whenever the loop of [main] of
    download_datasets.py goes through, it has launched the [kaggle]
    command of each of the five datasets exactly once, in the order of the
    list: a download that fails with a non-zero exit status does not stop
    the ones after it. *)
Theorem every_dataset_is_attempted {P : Platform} {D : Downloads P}
    (st st1 : State) (acc : nat * list str) :
  DownloadDatasets.download_all DownloadDatasets.datasets st = (Return acc, st1) ->
  external (trace st1)
  = external (trace st) ++ map kaggle_launch DownloadDatasets.datasets.
Proof.
  unfold DownloadDatasets.download_all. step. intros Hrun.
  apply download_loop in Hrun as (oks & _ & _ & _ & Hx).
  rewrite Hx. cbn [trace]. rewrite !external_app. cbn [external filter is_external].
  now rewrite !app_nil_r.
Qed.

Lemma every_dataset_is_attempted_witness :
  let P := failing [] in
  let D := quiet_downloads P in
  let r := @DownloadDatasets.download_all P D (@DownloadDatasets.datasets P)
             (stub_start P 0%Z) in
  external (trace (snd r))
  = external (trace (stub_start P 0%Z)) ++ map kaggle_launch (@DownloadDatasets.datasets P).
Proof.
  intros P D r.
  assert (Hr : r = (Return (0, failed_of (@DownloadDatasets.datasets P)
                                 [false; false; false; false; false]), snd r))
    by (vm_compute; reflexivity).
  exact (@every_dataset_is_attempted P D (stub_start P 0%Z) (snd r) _ Hr).
Defined.

(** X9.  What download_datasets.py does not catch.  [run_command] handles
    [CalledProcessError] only and [mkdir] is called outside any [try]: when
    the directory cannot be made, the loop ends with that exception and
    launches nothing for this dataset or the ones after it; when launching
    [kaggle] raises something else than a non-zero exit status (for
    instance because [kaggle] is not installed), the loop ends with that
    exception right after this one launch.  [main] therefore ends in one of
    three ways: it returns, it calls [sys.exit(1)], or an exception
    escapes. *)
Theorem download_errors_escape {P : Platform} {D : Downloads P}
    (d : DownloadDatasets.dataset) (rest : list DownloadDatasets.dataset)
    (acc : nat * list str) (st : State) :
  let run := for_each (d :: rest) DownloadDatasets.download_one acc st in
  let w1 := snd (mkdir_parents (DownloadDatasets.ds_dir d) (world st)) in
  (forall e,
     fst (mkdir_parents (DownloadDatasets.ds_dir d) (world st)) = Some e ->
     fst run = Raise e /\ external (trace (snd run)) = external (trace st))
  /\ (forall e,
        fst (mkdir_parents (DownloadDatasets.ds_dir d) (world st)) = None ->
        fst (subprocess_run
               (DownloadDatasets.command (DownloadDatasets.ds_name d)
                  (DownloadDatasets.ds_dir d)) true w1) = Some e ->
        not_called_process_error e ->
        fst run = Raise e
        /\ external (trace (snd run)) = external (trace st) ++ [kaggle_launch d])
  /\ (fst (DownloadDatasets.main st) = Return tt
      \/ fst (DownloadDatasets.main st) = Exit 1%Z
      \/ exists e, fst (DownloadDatasets.main st) = Raise e).
Proof.
  intros run w1. split; [|split].
  - intros e He. subst run. destruct acc as [sc failed].
    cbn [for_each]. unfold bind at 1 2.
    rewrite download_one_cases. cbv zeta. rewrite He. cbn [fst snd trace].
    split; [reflexivity|]. rewrite external_app. cbn [external filter is_external].
    now rewrite app_nil_r.
  - intros e Hm He Hne. subst run. destruct acc as [sc failed].
    cbn [for_each]. unfold bind at 1 2.
    rewrite download_one_cases. cbv zeta. fold w1. rewrite Hm, He.
    destruct e; try contradiction; cbn [fst snd trace];
      (split; [reflexivity|]); rewrite !external_app; reflexivity.
  - remember (fst (DownloadDatasets.main st)) as o eqn:Ho.
    unfold DownloadDatasets.main, DownloadDatasets.main_on, bind at 1 in Ho.
    destruct (DownloadDatasets.download_all DownloadDatasets.datasets st)
      as [[[sc failed]|e|c] st1] eqn:E.
    + cbn [fst snd] in Ho. unfold DownloadDatasets.summary in Ho. revert Ho.
      destruct failed; step; intros ->; auto.
    + right; right. exists e. exact Ho.
    + exfalso. unfold DownloadDatasets.download_all in E. revert E. step. intros E.
      eapply download_loop_never_exits. rewrite E. reflexivity.
Qed.

Lemma download_errors_escape_witness :
  let d := DownloadDatasets.mkDataset (lit "mlg-ulb/creditcardfraud")
             (path_of_str (lit "/srv/repo/datasets/anomaly"))
             (lit "Anomaly Detection: Credit Card Fraud") in
  let st := stub_start healthy 0%Z in
  fst (@for_each healthy _ _ [d] (@DownloadDatasets.download_one healthy
                                    (read_only_disk healthy)) (0, []) st)
  = Raise (OtherException (lit "[Errno 13] Permission denied"))
  /\ fst (@for_each no_kaggle _ _ [d] (@DownloadDatasets.download_one no_kaggle
                                         (quiet_downloads no_kaggle)) (0, [])
            (stub_start no_kaggle 0%Z))
     = Raise (OtherException (lit "[Errno 2] No such file or directory: 'kaggle'")).
Proof.
  intros d st.
  destruct (@download_errors_escape healthy (read_only_disk healthy) d [] (0, []) st)
    as (H1 & _ & _).
  destruct (@download_errors_escape no_kaggle (quiet_downloads no_kaggle) d [] (0, [])
              (stub_start no_kaggle 0%Z))
    as (_ & H2 & _).
  split.
  - apply H1. reflexivity.
  - apply H2; [reflexivity | reflexivity | exact I].
Defined.

(** * scripts/optimize_notebooks.py *)

(** ** Python's [str], further *)

Example split_lines : split 10%N (lit "a" ++ nl ++ lit "b" ++ nl) = [lit "a"; lit "b"; []].
Proof. reflexivity. Qed.

Example split_empty : split 10%N [] = [[]].
Proof. reflexivity. Qed.

Example replace_overlapping : replace (lit "aaa") (lit "aa") (lit "b") = lit "ba".
Proof. reflexivity. Qed.

Example replace_empty_old : replace (lit "ab") [] (lit "-") = lit "-a-b-".
Proof. reflexivity. Qed.

Example lstrip_mixed : lstrip (9%N :: lit "  x y ") = lit "x y ".
Proof. reflexivity. Qed.

Lemma contains_join (p sep x : str) (xs : list str) :
  In x xs -> contains p x = true -> contains p (join sep xs) = true.
Proof.
  intros Hin Hp. induction xs as [|y ys IH]; [contradiction|].
  destruct Hin as [-> | Hin].
  - destruct ys; cbn [join]; [exact Hp | now apply contains_app_l].
  - specialize (IH Hin). destruct ys as [|z zs]; [contradiction|].
    change (join sep (y :: z :: zs)) with (y ++ sep ++ join sep (z :: zs)).
    now apply contains_app_r, contains_app_r.
Qed.

Lemma split_not_empty (sep : char) (s : str) : split sep s <> [].
Proof.
  destruct s as [|c s]; cbn [split]; [discriminate|].
  destruct (char_eqb c sep); [discriminate|]. destruct (split sep s); discriminate.
Qed.

(** Joining what was split gives the text back. *)
Lemma join_split (sep : char) (s : str) : join [sep] (split sep s) = s.
Proof.
  induction s as [|c s IH]; [reflexivity|].
  cbn [split]. pose proof (split_not_empty sep s) as Hne.
  destruct (char_eqb c sep) eqn:E.
  - apply N.eqb_eq in E. subst c.
    destruct (split sep s) as [|l ls]; [contradiction|].
    change (join [sep] ([] :: l :: ls)) with ([] ++ [sep] ++ join [sep] (l :: ls)).
    now rewrite IH.
  - destruct (split sep s) as [|l ls]; [contradiction|].
    destruct ls as [|l' ls]; cbn [join] in *; now rewrite <- IH.
Qed.

Lemma replace_from_absent (old new s : str) :
  contains old s = false -> replace_from 0 old new s = s.
Proof.
  induction s as [|c s IH]; [reflexivity|].
  cbn [contains replace_from]. rewrite orb_false_iff. intros [H1 H2].
  rewrite H1. f_equal. now apply IH.
Qed.

(** Replacing a text that does not occur changes nothing. *)
Lemma replace_absent (s old new : str) :
  contains old s = false -> replace s old new = s.
Proof.
  intros H. destruct old as [|c old].
  - destruct s; discriminate.
  - now apply replace_from_absent.
Qed.

(** After replacing a text that occurs, the replacement occurs. *)
Lemma replace_present (s old new : str) :
  old <> [] -> contains old s = true -> contains new (replace s old new) = true.
Proof.
  intros Hne. destruct old as [|c0 old]; [contradiction|]. unfold replace.
  induction s as [|c s IH]; cbn [contains replace_from]; rewrite orb_true_iff.
  - intros [H | H]; discriminate.
  - intros [H | H].
    + rewrite H. apply contains_app_l. apply contains_spec. exists [], [].
      now rewrite app_nil_r.
    + destruct (startswith (c :: s) (c0 :: old)).
      * apply contains_app_l. apply contains_spec. exists [], [].
        now rewrite app_nil_r.
      * specialize (IH H). change (c :: ?x) with ([c] ++ x).
        now apply contains_app_r.
Qed.

Lemma lstrip_length (s : str) :
  List.length s = leading_whitespace s + List.length (lstrip s).
Proof.
  induction s as [|c s IH]; [reflexivity|].
  cbn [lstrip leading_whitespace]. destruct (isspace c); cbn [List.length]; lia.
Qed.

(** ** The loops over the cells *)

Ltac refold_replace :=
  repeat match goal with
  | |- context [replace_from 0 (lit ?o) ?n ?s] =>
      change (replace_from 0 (lit o) n s) with (replace s (lit o) n)
  end.

Section Cells.
Variable Rest : Type.
Local Abbreviation cell := (OptimizeNotebooks.cell Rest).

Lemma for_cells_map (body : cell -> cell * list str) (cells : list cell) :
  fst (OptimizeNotebooks.for_cells body cells) = map (fun c => fst (body c)) cells.
Proof.
  induction cells as [|c cs IH]; [reflexivity|].
  cbn [OptimizeNotebooks.for_cells map]. destruct (body c) as [c' out] eqn:E.
  destruct (OptimizeNotebooks.for_cells body cs) as [cs' outs].
  cbn [fst] in *. now rewrite IH.
Qed.

Lemma set_source_same (c : cell) :
  OptimizeNotebooks.set_source c (OptimizeNotebooks.source c) = c.
Proof. now destruct c. Qed.

Lemma clustering_cell_idempotent (c : cell) :
  fst (OptimizeNotebooks.clustering_cell (fst (OptimizeNotebooks.clustering_cell c)))
  = fst (OptimizeNotebooks.clustering_cell c).
Proof.
  destruct (OptimizeNotebooks.clustering_cell c) as [c1 out] eqn:E. cbn [fst].
  unfold OptimizeNotebooks.clustering_cell in E. cbv zeta in E.
  destruct (str_eqb (OptimizeNotebooks.cell_type c) (lit "code")) eqn:Et.
  - destruct (contains (lit "from pycaret.clustering import *") (OptimizeNotebooks.source c)
              && contains (lit "s = setup(") (OptimizeNotebooks.source c)
              && negb (contains (lit "fold=") (OptimizeNotebooks.source c))) eqn:Eg;
      injection E as <- <-.
    + refold_replace.
      destruct (contains (lit "s = setup(data, session_id = 123)")
                  (OptimizeNotebooks.source c)) eqn:Eo.
      * unfold OptimizeNotebooks.clustering_cell.
        cbn [OptimizeNotebooks.set_source OptimizeNotebooks.cell_type
               OptimizeNotebooks.source].
        rewrite Et. cbv zeta.
        match goal with
        | |- context [negb (contains (lit "fold=") ?s)] =>
            assert (Hf : contains (lit "fold=") s = true)
        end.
        { eapply contains_trans; [|apply replace_present; [discriminate | exact Eo]].
          reflexivity. }
        rewrite Hf. cbn [negb]. rewrite andb_false_r. reflexivity.
      * rewrite (replace_absent _ _ _ Eo), set_source_same.
        unfold OptimizeNotebooks.clustering_cell. rewrite Et. cbv zeta. rewrite Eg.
        cbn [fst]. now rewrite (replace_absent _ _ _ Eo), set_source_same.
    + unfold OptimizeNotebooks.clustering_cell. rewrite Et. cbv zeta. now rewrite Eg.
  - injection E as <- <-. unfold OptimizeNotebooks.clustering_cell. now rewrite Et.
Qed.

Lemma clustering_cell_keeps (c : cell) :
  OptimizeNotebooks.cell_type (fst (OptimizeNotebooks.clustering_cell c))
  = OptimizeNotebooks.cell_type c
  /\ OptimizeNotebooks.rest (fst (OptimizeNotebooks.clustering_cell c))
     = OptimizeNotebooks.rest c.
Proof.
  unfold OptimizeNotebooks.clustering_cell.
  destruct (str_eqb _ _); [|now split]. cbv zeta.
  destruct (_ && _ && _); now split.
Qed.

End Cells.

(** X10.  The clustering optimisation can be run again.  Applied to the
    cells it has produced, the loop over clustering.ipynb changes nothing
    more.  It never changes the number of cells, the type of a cell or
    anything of a cell but its source. *)
Theorem clustering_optimisation_is_idempotent (Rest : Type)
    (cells : list (OptimizeNotebooks.cell Rest)) :
  let once := fst (OptimizeNotebooks.optimize_clustering cells) in
  fst (OptimizeNotebooks.optimize_clustering once) = once
  /\ List.length once = List.length cells
  /\ map (@OptimizeNotebooks.cell_type Rest) once
     = map (@OptimizeNotebooks.cell_type Rest) cells
  /\ map (@OptimizeNotebooks.rest Rest) once = map (@OptimizeNotebooks.rest Rest) cells.
Proof.
  intros once. subst once. unfold OptimizeNotebooks.optimize_clustering.
  rewrite !for_cells_map, !map_map, length_map.
  split; [|split; [reflexivity|split]]; apply map_ext; intros c.
  - apply clustering_cell_idempotent.
  - apply clustering_cell_keeps.
  - apply clustering_cell_keeps.
Qed.

(** X11.  An update that changes nothing.  For a code cell that imports
    pycaret.clustering, calls [s = setup(] and has no [fold=], the script
    prints that it updated the call; but when the call is not written
    exactly as [s = setup(data, session_id = 123)], the cell is left as it
    was. *)
Theorem clustering_update_without_change (Rest : Type)
    (c : OptimizeNotebooks.cell Rest) :
  OptimizeNotebooks.cell_type c = lit "code" ->
  contains (lit "from pycaret.clustering import *") (OptimizeNotebooks.source c) = true ->
  contains (lit "s = setup(") (OptimizeNotebooks.source c) = true ->
  contains (lit "fold=") (OptimizeNotebooks.source c) = false ->
  contains (lit "s = setup(data, session_id = 123)") (OptimizeNotebooks.source c) = false ->
  OptimizeNotebooks.clustering_cell c = (c, [lit "  ✓ Updated clustering setup() call"]).
Proof.
  intros Ht H1 H2 H3 H4. unfold OptimizeNotebooks.clustering_cell.
  rewrite Ht, str_eqb_refl. cbv zeta. rewrite H1, H2, H3. cbn [andb negb].
  now rewrite (replace_absent _ _ _ H4), set_source_same.
Qed.

Lemma clustering_update_without_change_witness :
  OptimizeNotebooks.clustering_cell (code_cell clustering_other_seed)
  = (code_cell clustering_other_seed, [lit "  ✓ Updated clustering setup() call"]).
Proof.
  apply clustering_update_without_change; reflexivity.
Defined.

(** ** The lines of a time-series cell *)

Lemma add_fold_lines_from (lines : list str) (acc : list str) :
  fold_left
    (fun new_lines line =>
       let new_lines := new_lines ++ [line] in
       if contains (lit "fh=24,") line then
         let indent := (len line - len (lstrip line))%Z in
         new_lines
         ++ [str_mul (lit " ") (Z.to_nat indent)
             ++ lit "fold=3,  # Reduced from default 10 for faster execution"]
       else new_lines)
    lines acc
  = acc ++ flat_map with_fold_line lines.
Proof.
  revert acc; induction lines as [|l lines IH]; intros acc.
  - cbn. now rewrite app_nil_r.
  - cbn [fold_left flat_map]. rewrite IH. cbv zeta. unfold with_fold_line at 2.
    destruct (contains (lit "fh=24,") l).
    + unfold fold_line, fold_text, len.
      replace (Z.to_nat (Z.of_nat (List.length l) - Z.of_nat (List.length (lstrip l))))
        with (leading_whitespace l) by (pose proof (lstrip_length l); lia).
      rewrite <- !app_assoc. reflexivity.
    + rewrite <- !app_assoc. reflexivity.
Qed.

(** X12.  What the time-series loop inserts.  The lines of the cell are
    kept, in order; after each line that contains [fh=24,] one line is
    inserted, made of as many spaces as that line has whitespace
    characters at its start (a tab counts for one) followed by the
    [fold=3,] text.  The cell grows by exactly one line per such line. *)
Theorem fold_lines_follow_their_line (lines : list str) :
  OptimizeNotebooks.add_fold_lines lines = flat_map with_fold_line lines
  /\ List.length (OptimizeNotebooks.add_fold_lines lines)
     = List.length lines
       + List.length (filter (contains (lit "fh=24,")) lines).
Proof.
  assert (H : OptimizeNotebooks.add_fold_lines lines = flat_map with_fold_line lines).
  { unfold OptimizeNotebooks.add_fold_lines. now rewrite add_fold_lines_from. }
  split; [exact H|]. rewrite H. clear H.
  induction lines as [|l lines IH]; [reflexivity|].
  change (flat_map with_fold_line (l :: lines))
    with (with_fold_line l ++ flat_map with_fold_line lines).
  rewrite length_app, IH. cbn [filter]. unfold with_fold_line.
  destruct (contains (lit "fh=24,") l); cbn [List.length]; lia.
Qed.

Example tab_becomes_space :
  OptimizeNotebooks.add_fold_lines (split 10%N time_series_tabbed)
  = [ lit "ts_setup = setup(data,";
      9%N :: lit " fh=24,";
      lit "  fold=3,  # Reduced from default 10 for faster execution";
      lit ")" ].
Proof. reflexivity. Qed.

Lemma no_fold_line (lines : list str) :
  existsb (contains (lit "fh=24,")) lines = false ->
  flat_map with_fold_line lines = lines.
Proof.
  induction lines as [|l lines IH]; [reflexivity|].
  cbn [existsb]. rewrite orb_false_iff. intros [Hl Hr].
  change (flat_map with_fold_line (l :: lines))
    with (with_fold_line l ++ flat_map with_fold_line lines).
  rewrite (IH Hr). unfold with_fold_line. now rewrite Hl.
Qed.

Lemma some_fold_line (lines : list str) :
  existsb (contains (lit "fh=24,")) lines = true ->
  contains (lit "fold=") (join nl (flat_map with_fold_line lines)) = true.
Proof.
  intros H. apply existsb_exists in H as (l & Hin & Hl).
  apply contains_join with (x := fold_line l).
  - apply in_flat_map. exists l. split; [exact Hin|].
    unfold with_fold_line. rewrite Hl. right. now left.
  - unfold fold_line. apply contains_app_r. reflexivity.
Qed.

Lemma line_of_source (p : str) (sep : char) (s : str) :
  contains p s = false -> existsb (contains p) (split sep s) = false.
Proof.
  intros H. destruct (existsb (contains p) (split sep s)) eqn:E; [|reflexivity].
  apply existsb_exists in E as (l & Hin & Hl).
  rewrite <- (join_split sep s), (contains_join p [sep] l _ Hin Hl) in H.
  discriminate.
Qed.

Section TimeSeriesCells.
Variable Rest : Type.
Local Abbreviation cell := (OptimizeNotebooks.cell Rest).

Lemma time_series_cell_idempotent (c : cell) :
  fst (OptimizeNotebooks.time_series_cell (fst (OptimizeNotebooks.time_series_cell c)))
  = fst (OptimizeNotebooks.time_series_cell c).
Proof.
  destruct (OptimizeNotebooks.time_series_cell c) as [c1 out] eqn:E. cbn [fst].
  unfold OptimizeNotebooks.time_series_cell in E. cbv zeta in E.
  destruct (str_eqb (OptimizeNotebooks.cell_type c) (lit "code")) eqn:Et.
  - destruct (contains (lit "ts_setup = setup(") (OptimizeNotebooks.source c)
              && negb (contains (lit "fold=") (OptimizeNotebooks.source c))
              && contains (lit "fh=24") (OptimizeNotebooks.source c)) eqn:Eg;
      injection E as <- <-.
    + unfold OptimizeNotebooks.add_fold_lines. rewrite add_fold_lines_from.
      cbn [app].
      destruct (existsb (contains (lit "fh=24,"))
                  (split 10%N (OptimizeNotebooks.source c))) eqn:Eo.
      * unfold OptimizeNotebooks.time_series_cell.
        cbn [OptimizeNotebooks.set_source OptimizeNotebooks.cell_type
               OptimizeNotebooks.source].
        rewrite Et. cbv zeta. rewrite (some_fold_line _ Eo).
        cbn [negb]. rewrite andb_false_r. reflexivity.
      * rewrite (no_fold_line _ Eo).
        change nl with [10%N]. rewrite join_split, set_source_same.
        unfold OptimizeNotebooks.time_series_cell. rewrite Et. cbv zeta. rewrite Eg.
        cbn [fst]. unfold OptimizeNotebooks.add_fold_lines.
        rewrite add_fold_lines_from. cbn [app]. rewrite (no_fold_line _ Eo).
        change nl with [10%N]. now rewrite join_split, set_source_same.
    + unfold OptimizeNotebooks.time_series_cell. rewrite Et. cbv zeta. now rewrite Eg.
  - injection E as <- <-. unfold OptimizeNotebooks.time_series_cell. now rewrite Et.
Qed.

Lemma time_series_cell_keeps (c : cell) :
  OptimizeNotebooks.cell_type (fst (OptimizeNotebooks.time_series_cell c))
  = OptimizeNotebooks.cell_type c
  /\ OptimizeNotebooks.rest (fst (OptimizeNotebooks.time_series_cell c))
     = OptimizeNotebooks.rest c.
Proof.
  unfold OptimizeNotebooks.time_series_cell.
  destruct (str_eqb _ _); [|now split]. cbv zeta.
  destruct (_ && _ && _); now split.
Qed.

End TimeSeriesCells.

(** X13.  The time-series optimisation can be run again.  Applied to the
    cells it has produced, the loop over time-series-forecasting.ipynb
    changes nothing more: no second [fold=3,] line is ever added.  It
    never changes the number of cells, the type of a cell or anything of a
    cell but its source. *)
Theorem time_series_optimisation_is_idempotent (Rest : Type)
    (cells : list (OptimizeNotebooks.cell Rest)) :
  let once := fst (OptimizeNotebooks.optimize_time_series cells) in
  fst (OptimizeNotebooks.optimize_time_series once) = once
  /\ List.length once = List.length cells
  /\ map (@OptimizeNotebooks.cell_type Rest) once
     = map (@OptimizeNotebooks.cell_type Rest) cells
  /\ map (@OptimizeNotebooks.rest Rest) once = map (@OptimizeNotebooks.rest Rest) cells.
Proof.
  intros once. subst once. unfold OptimizeNotebooks.optimize_time_series.
  rewrite !for_cells_map, !map_map, length_map.
  split; [|split; [reflexivity|split]]; apply map_ext; intros c.
  - apply time_series_cell_idempotent.
  - apply time_series_cell_keeps.
  - apply time_series_cell_keeps.
Qed.

(** X14.  An update that changes nothing.  The script looks for [fh=24]
    in the cell but inserts only after a line that contains [fh=24,] with
    the comma: for a code cell that calls [ts_setup = setup(], has no
    [fold=] and has [fh=24] but nowhere followed by a comma, it prints
    that it updated the call and leaves the cell as it was. *)
Theorem time_series_update_without_change (Rest : Type)
    (c : OptimizeNotebooks.cell Rest) :
  OptimizeNotebooks.cell_type c = lit "code" ->
  contains (lit "ts_setup = setup(") (OptimizeNotebooks.source c) = true ->
  contains (lit "fold=") (OptimizeNotebooks.source c) = false ->
  contains (lit "fh=24") (OptimizeNotebooks.source c) = true ->
  contains (lit "fh=24,") (OptimizeNotebooks.source c) = false ->
  OptimizeNotebooks.time_series_cell c
  = (c, [lit "  ✓ Updated time series setup() call"]).
Proof.
  intros Ht H1 H2 H3 H4. unfold OptimizeNotebooks.time_series_cell.
  rewrite Ht, str_eqb_refl. cbv zeta. rewrite H1, H2, H3. cbn [andb negb].
  unfold OptimizeNotebooks.add_fold_lines. rewrite add_fold_lines_from. cbn [app].
  rewrite (no_fold_line _ (line_of_source _ 10%N _ H4)).
  change nl with [10%N]. now rewrite join_split, set_source_same.
Qed.

Lemma time_series_update_without_change_witness :
  OptimizeNotebooks.time_series_cell (code_cell time_series_last_argument)
  = (code_cell time_series_last_argument, [lit "  ✓ Updated time series setup() call"]).
Proof.
  apply time_series_update_without_change; reflexivity.
Defined.

(** * scripts/add_auto_download.py *)

Example litq_quotes : AddAutoDownload.litq "f`x`" = [102; 34; 120; 34]%N.
Proof. reflexivity. Qed.

Example generated_code_starts :
  startswith
    (AddAutoDownload.create_download_cell (lit "regression") (lit "housing.csv")
       (lit "camnugent/california-housing-prices"))
    (lit "import os" ++ nl ++ lit "from pathlib import Path" ++ nl) = true.
Proof. reflexivity. Qed.

Section Updates.
Variable Rest : Type.
Local Abbreviation cell := (OptimizeNotebooks.cell Rest).
Variables file_name download_code message : str.

Lemma update_cells_skip (c : cell) (cs : list cell) :
  AddAutoDownload.loads file_name c = false ->
  AddAutoDownload.update_cells file_name download_code message (c :: cs)
  = (c :: fst (AddAutoDownload.update_cells file_name download_code message cs),
     snd (AddAutoDownload.update_cells file_name download_code message cs)).
Proof.
  intros H. cbn [AddAutoDownload.update_cells]. rewrite H.
  now destruct (AddAutoDownload.update_cells file_name download_code message cs).
Qed.

Lemma update_cells_none (cells : list cell) :
  forallb (fun c => negb (AddAutoDownload.loads file_name c)) cells = true ->
  AddAutoDownload.update_cells file_name download_code message cells = (cells, []).
Proof.
  induction cells as [|c cs IH]; [reflexivity|].
  cbn [forallb]. rewrite andb_true_iff, negb_true_iff. intros [Hc Hcs].
  rewrite (update_cells_skip _ _ Hc), (IH Hcs). reflexivity.
Qed.

Lemma update_cells_first (before after : list cell) (c : cell) :
  forallb (fun c => negb (AddAutoDownload.loads file_name c)) before = true ->
  AddAutoDownload.loads file_name c = true ->
  AddAutoDownload.update_cells file_name download_code message (before ++ c :: after)
  = (before ++ OptimizeNotebooks.set_source c download_code :: after, [message]).
Proof.
  intros Hb Hc. induction before as [|b before IH].
  - cbn [app AddAutoDownload.update_cells]. now rewrite Hc.
  - cbn [forallb] in Hb. apply andb_true_iff in Hb as [Hb Hbs].
    apply negb_true_iff in Hb. cbn [app].
    rewrite (update_cells_skip _ _ Hb), (IH Hbs). reflexivity.
Qed.

Lemma update_cells_length (cells : list cell) :
  List.length (fst (AddAutoDownload.update_cells file_name download_code message cells))
  = List.length cells.
Proof.
  induction cells as [|c cs IH]; [reflexivity|].
  destruct (AddAutoDownload.loads file_name c) eqn:E.
  - cbn [AddAutoDownload.update_cells]. now rewrite E.
  - rewrite (update_cells_skip _ _ E). cbn [fst List.length]. now rewrite IH.
Qed.

(** When the code put in itself mentions the data file and reads a CSV
    file, the cell that was replaced is found again and given the same
    code. *)
Lemma update_cells_idempotent (cells : list cell) :
  contains file_name download_code = true ->
  contains (lit "pd.read_csv") download_code = true ->
  fst (AddAutoDownload.update_cells file_name download_code message
         (fst (AddAutoDownload.update_cells file_name download_code message cells)))
  = fst (AddAutoDownload.update_cells file_name download_code message cells).
Proof.
  intros Hf Hr. induction cells as [|c cs IH]; [reflexivity|].
  destruct (AddAutoDownload.loads file_name c) eqn:E.
  - cbn [AddAutoDownload.update_cells]. rewrite E. cbn [fst AddAutoDownload.update_cells].
    assert (E' : AddAutoDownload.loads file_name
                   (OptimizeNotebooks.set_source c download_code) = true).
    { unfold AddAutoDownload.loads in *.
      cbn [OptimizeNotebooks.set_source OptimizeNotebooks.cell_type
             OptimizeNotebooks.source].
      rewrite Hf, Hr. apply andb_true_iff in E as [E _].
      apply andb_true_iff in E as [E _]. now rewrite E. }
    rewrite E'. reflexivity.
  - rewrite (update_cells_skip _ _ E). cbn [fst].
    rewrite (update_cells_skip _ _ E). cbn [fst]. now rewrite IH.
Qed.

End Updates.

(** X15.  Only the first loading cell is replaced.  In each loop of
    add_auto_download.py, when no cell is a code cell that mentions the
    data file and [pd.read_csv], the cells are left as they are and
    nothing is printed; otherwise the first such cell gets the download
    code, the message is printed once, and every other cell, the later
    ones that load the file included, is left as it was. *)
Theorem only_the_first_loader_is_replaced (Rest : Type)
    (file_name download_code message : str)
    (before after : list (OptimizeNotebooks.cell Rest))
    (c : OptimizeNotebooks.cell Rest) :
  forallb (fun c => negb (AddAutoDownload.loads file_name c)) before = true ->
  AddAutoDownload.update_cells file_name download_code message before = (before, [])
  /\ (AddAutoDownload.loads file_name c = true ->
      AddAutoDownload.update_cells file_name download_code message (before ++ c :: after)
      = (before ++ OptimizeNotebooks.set_source c download_code :: after, [message])).
Proof.
  intros Hb. split.
  - now apply update_cells_none.
  - intros Hc. now apply update_cells_first.
Qed.

Lemma only_the_first_loader_is_replaced_witness :
  let code := AddAutoDownload.create_download_cell (lit "regression")
                (lit "housing.csv") (lit "camnugent/california-housing-prices") in
  @AddAutoDownload.update_regression unit
    [markdown_cell (lit "# Load housing.csv"); code_cell housing_loader;
     code_cell housing_loader]
  = ([markdown_cell (lit "# Load housing.csv"); code_cell code;
      code_cell housing_loader],
     [lit "  ✓ Added auto-download to regression.ipynb"]).
Proof.
  intros code.
  apply (only_the_first_loader_is_replaced (lit "housing.csv") code
           (lit "  ✓ Added auto-download to regression.ipynb")
           [markdown_cell (lit "# Load housing.csv")] [code_cell housing_loader]
           (code_cell housing_loader)); reflexivity.
Defined.

(** X16.  The script can be run again.  For each of the five notebooks,
    the code put in mentions the data file looked for and calls
    [pd.read_csv], so a second run finds the cell it replaced and gives it
    the same code: the cells after two runs are the cells after one.  No
    run changes the number of cells. *)
Theorem auto_download_is_idempotent (Rest : Type)
    (cells : list (OptimizeNotebooks.cell Rest)) :
  Forall (fun update : list (OptimizeNotebooks.cell Rest)
                       -> list (OptimizeNotebooks.cell Rest) * list str =>
            fst (update (fst (update cells))) = fst (update cells)
            /\ List.length (fst (update cells)) = List.length cells)
    [ @AddAutoDownload.update_regression Rest;
      @AddAutoDownload.update_clustering Rest;
      @AddAutoDownload.update_anomaly_detection Rest;
      @AddAutoDownload.update_association Rest;
      @AddAutoDownload.update_time_series_forecasting Rest ].
Proof.
  repeat constructor;
    try apply update_cells_length;
    apply update_cells_idempotent; vm_compute; reflexivity.
Qed.
